(** * JavaScriptCoreCPP / HAL: the native-object export bridge

    A shallow embedding of
    - [detail/JSExportNamedFunctionPropertyCallback.hpp]
      (the function-property callback, its constructor and [operator==]),
    - [RAII/JSNativeObjectBuilder.hpp]
      (the builder, the definition snapshot and the constructor of
      [JSNativeObject] that compiles a builder into a class record),
    - [src/JSArray.cpp] ([GetLength] and the conversions to [std::vector]).

    C++ exceptions are values of [exception]; a function that may throw
    returns [result A].  A [std::unordered_set] is a list, read in the order
    the range-for visits it; two such sets are equal when they have the same
    members.  A nullable callback is an [option]. *)

From stdpp Require Import gmap strings list.

Local Open Scope Z_scope.

#[local] Set Warnings "-register-all".

(** ** Exceptions *)

Inductive exception : Type :=
  | invalid_argument   (* std::invalid_argument, raised by ThrowInvalidArgument *)
  | out_of_range       (* std::out_of_range, raised by std::bitset::set *)
  | runtime_error.     (* std::runtime_error, raised by ThrowRuntimeError *)

Definition result (A : Type) : Type := (exception + A)%type.

Definition ThrowInvalidArgument {A : Type} : result A := inl invalid_argument.

#[global] Instance exception_eq_dec : EqDecision exception.
Proof. solve_decision. Defined.

(** A bound native member function is named by its identity; [None] is
    [nullptr]. *)
Inductive native_function : Type :=
  | member_function (id : nat).

#[global] Instance native_function_eq_dec : EqDecision native_function.
Proof. solve_decision. Defined.

Definition callback : Type := option native_function.

(** [if (cb)]: contextual conversion of a callback to [bool]. *)
Definition callable (cb : callback) : bool :=
  match cb with
  | Some _ => true
  | None => false
  end.

(** [std::unordered_set::operator==]: the same members, whatever the order. *)
Definition unordered_set_eqb {A : Type} `{EqDecision A} (l r : list A) : bool :=
  forallb (fun x => bool_decide (x ∈ r)) l && forallb (fun x => bool_decide (x ∈ l)) r.

Definition same_members {A : Type} (l r : list A) : Prop :=
  ∀ x, x ∈ l ↔ x ∈ r.

(** ** namespace detail *)

(** Modelled from the spec: the enumeration [JSPropertyAttribute], whose
    declaration is not among the sources; section 3 lists its members. *)
Inductive JSPropertyAttribute : Type :=
  | ReadOnly
  | DontEnum
  | DontDelete.

#[global] Instance JSPropertyAttribute_eq_dec : EqDecision JSPropertyAttribute.
Proof. solve_decision. Defined.

Module JSPropertyCallback.

Record t : Type := mk {
  property_name_ : string;
  attributes_ : list JSPropertyAttribute
}.

(** Modelled from the spec: the constructor of the base class
    [JSPropertyCallback], whose definition is not among the sources.  The
    name is non-empty (section 3) and an empty name is a configuration
    error (section 7); the derived constructor's own documentation lists
    "function_name is empty" as its first [std::invalid_argument] case. *)
Definition ctor (property_name : string)
    (attributes : list JSPropertyAttribute) : result t :=
  if bool_decide (property_name = "") then ThrowInvalidArgument
  else inr (mk property_name attributes).

(** Modelled from the spec: [operator==] of the base class, whose
    definition is not among the sources; section 3 compares the name and
    the attributes. *)
Definition eqb (lhs rhs : t) : bool :=
  bool_decide (property_name_ lhs = property_name_ rhs)
  && unordered_set_eqb (attributes_ lhs) (attributes_ rhs).

End JSPropertyCallback.

Module JSExportNamedFunctionPropertyCallback.

(** [CallNamedFunctionCallback<T>] *)
Definition CallNamedFunctionCallback : Type := callback.

Record t : Type := mk {
  base : JSPropertyCallback.t;
  function_callback__ : CallNamedFunctionCallback
}.

Definition function_callback (this : t) : CallNamedFunctionCallback :=
  function_callback__ this.

Definition name (this : t) : string :=
  JSPropertyCallback.property_name_ (base this).

Definition attributes (this : t) : list JSPropertyAttribute :=
  JSPropertyCallback.attributes_ (base this).

(** The constructor: the base class is initialised first, then the member,
    then the body tests the callback. *)
Definition ctor (function_name : string)
    (function_callback : CallNamedFunctionCallback)
    (attributes : list JSPropertyAttribute) : result t :=
  match JSPropertyCallback.ctor function_name attributes with
  | inl e => inl e
  | inr b =>
      let this := mk b function_callback in
      if negb (callable function_callback) then ThrowInvalidArgument
      else inr this
  end.

(** [operator==] *)
Definition eqb (lhs rhs : t) : bool :=
  if callable (function_callback__ lhs) && negb (callable (function_callback__ rhs))
  then false
  else if negb (callable (function_callback__ lhs)) && callable (function_callback__ rhs)
  then false
  else JSPropertyCallback.eqb (base lhs) (base rhs).

(** [operator!=] *)
Definition neqb (lhs rhs : t) : bool := negb (eqb lhs rhs).

(** The equality the data model describes: the names, the attribute sets
    and the identities of the bound callbacks all agree. *)
Definition agree (lhs rhs : t) : Prop :=
  name lhs = name rhs
  ∧ same_members (attributes lhs) (attributes rhs)
  ∧ function_callback__ lhs = function_callback__ rhs.

(** [swap(other)]: the member function exchanges [function_callback__] of
    the receiver and of [other], and nothing else; the two objects it
    leaves are returned, the receiver first. *)
Definition swap (this other : t) : t * t :=
  (mk (base this) (function_callback__ other),
   mk (base other) (function_callback__ this)).

(** The free function [swap(first, second)] calls [first.swap(second)]. *)
Definition swap_free (first second : t) : t * t := swap first second.

End JSExportNamedFunctionPropertyCallback.

(** ** namespace RAII: the JavaScriptCore class record *)

(** The lowered callbacks the engine calls.  [JSObjectInitializeCallback] is
    the only one the header names. *)
Inductive engine_callback : Type :=
  | JSObjectInitializeCallback.

Module JSStaticValue.
Record t : Type := mk {
  name : string;
  getProperty : option engine_callback;
  setProperty : option engine_callback;
  attributes : Z
}.
End JSStaticValue.

Module JSStaticFunction.
Record t : Type := mk {
  name : string;
  callAsFunction : option engine_callback;
  attributes : Z
}.
End JSStaticFunction.

(** The C record [JSClassDefinition] of the JavaScriptCore API.  A
    [JSClassRef] is named by the record the class was created from; a null
    pointer is [None]. *)
Module JSClassDefinition.

Inductive t : Type := mk {
  version : Z;
  attributes : Z;
  className : option string;
  parentClass : option t;
  staticValues : option (list JSStaticValue.t);
  staticFunctions : option (list JSStaticFunction.t);
  initialize : option engine_callback;
  finalize : option engine_callback;
  hasProperty : option engine_callback;
  getProperty : option engine_callback;
  setProperty : option engine_callback;
  deleteProperty : option engine_callback;
  getPropertyNames : option engine_callback;
  callAsFunction : option engine_callback;
  callAsConstructor : option engine_callback;
  hasInstance : option engine_callback;
  convertToType : option engine_callback
}.

Definition set_attributes (v : Z) (d : t) : t :=
  let '(mk a0 _ a2 a3 a4 a5 a6 a7 a8 a9 a10 a11 a12 a13 a14 a15 a16) := d in
  mk a0 v a2 a3 a4 a5 a6 a7 a8 a9 a10 a11 a12 a13 a14 a15 a16.

Definition set_className (v : option string) (d : t) : t :=
  let '(mk a0 a1 _ a3 a4 a5 a6 a7 a8 a9 a10 a11 a12 a13 a14 a15 a16) := d in
  mk a0 a1 v a3 a4 a5 a6 a7 a8 a9 a10 a11 a12 a13 a14 a15 a16.

Definition set_parentClass (v : option t) (d : t) : t :=
  let '(mk a0 a1 a2 _ a4 a5 a6 a7 a8 a9 a10 a11 a12 a13 a14 a15 a16) := d in
  mk a0 a1 a2 v a4 a5 a6 a7 a8 a9 a10 a11 a12 a13 a14 a15 a16.

Definition set_initialize (v : option engine_callback) (d : t) : t :=
  let '(mk a0 a1 a2 a3 a4 a5 _ a7 a8 a9 a10 a11 a12 a13 a14 a15 a16) := d in
  mk a0 a1 a2 a3 a4 a5 v a7 a8 a9 a10 a11 a12 a13 a14 a15 a16.

(** [kJSClassDefinitionEmpty]: version 0, no attributes, null pointers. *)
Definition kJSClassDefinitionEmpty : t :=
  mk 0 0 None None None None None None None None None None None None None None None.

End JSClassDefinition.

Definition JSClassRef : Type := option JSClassDefinition.t.

(** The names a class record serves through its static tables. *)
Definition static_value_names (d : JSClassDefinition.t) : list string :=
  match JSClassDefinition.staticValues d with
  | Some l => map JSStaticValue.name l
  | None => []
  end.

Definition static_function_names (d : JSClassDefinition.t) : list string :=
  match JSClassDefinition.staticFunctions d with
  | Some l => map JSStaticFunction.name l
  | None => []
  end.

Module JSClass.

Record t : Type := mk { js_class_ref_ : JSClassRef }.

(** Modelled from the spec: the wrapper [JSClass] and its constructor from
    a [JSClassDefinition*], whose definitions are not among the sources.
    The created class is the engine's copy of the record it was created
    from (section 2: the class record the engine understands). *)
Definition ctor (definition : JSClassDefinition.t) : t := mk (Some definition).

(** The wrapper a member holds before it is assigned. *)
Definition null : t := mk None.

End JSClass.

(** ** std::bitset *)

(** [std::bitset<N>::set(pos)]: sets bit [pos], and throws
    [std::out_of_range] when [pos] is not a position of the bitset.  A
    negative underlying value converts to a [size_t] far above [N]. *)
Definition bitset_set (N : Z) (bits : Z) (pos : Z) : result Z :=
  if (0 <=? pos) && (pos <? N) then inr (Z.lor bits (Z.shiftl 1 pos))
  else inl out_of_range.

(** [std::bitset<N>::to_ulong()] *)
Definition bitset_to_ulong (bits : Z) : Z := bits.

(** ** The callbacks and the attributes a builder holds *)

Definition JSString : Type := string.
Definition JSContext : Type := nat.

(** Modelled from the spec: the enumeration [JSNativeObjectAttributes], whose
    declaration is not among the sources.  A value is named by its
    underlying value, the fixed ordinal of section 4.3; an object of an
    enumeration type can hold any value of the underlying type. *)
Definition JSNativeObjectAttributes : Type := Z.

(** Modelled from the spec: [JSNativeObjectValuePropertyCallback<T>], whose
    declaration is not among the sources: a property callback with a getter
    and an optional setter (section 3). *)
Module JSNativeObjectValuePropertyCallback.
Record t : Type := mk {
  base : JSPropertyCallback.t;
  get_property_callback_ : callback;
  set_property_callback_ : callback
}.
Definition name (this : t) : string :=
  JSPropertyCallback.property_name_ (base this).
End JSNativeObjectValuePropertyCallback.

(** Modelled from the spec: [JSNativeObjectFunctionPropertyCallback<T>],
    whose declaration under this name is not among the sources: a property
    callback with one invocable (section 3), as the function-property
    callback of namespace detail. *)
Module JSNativeObjectFunctionPropertyCallback.
Definition t : Type := JSExportNamedFunctionPropertyCallback.t.
Definition name (this : t) : string :=
  JSExportNamedFunctionPropertyCallback.name this.
End JSNativeObjectFunctionPropertyCallback.

(** ** JSNativeObjectDefinition and JSNativeObject *)

Module JSNativeObjectDefinition.

(** [Parent] is [JSNativeObject<T>], the target of [parent_ptr_]. *)
Record t (Parent : Type) : Type := mk {
  class_name_ : JSString;
  class_name_for_js_class_definition_ : string;
  attributes_ : list JSNativeObjectAttributes;
  parent_ptr_ : option Parent;
  value_property_callbacks_ : list JSNativeObjectValuePropertyCallback.t;
  function_property_callbacks_ : list JSNativeObjectFunctionPropertyCallback.t;
  initialize_callback_ : callback;
  finalize_callback_ : callback;
  has_property_callback_ : callback;
  get_property_callback_ : callback;
  set_property_callback_ : callback;
  delete_property_callback_ : callback;
  get_property_names_callback_ : callback;
  call_as_function_with_this_callback_ : callback;
  call_as_function_callback_ : callback;
  call_as_constructor_callback_ : callback;
  has_instance_callback_ : callback;
  convert_to_type_callback_ : callback
}.

Arguments mk {Parent}.
Arguments class_name_ {Parent}.
Arguments class_name_for_js_class_definition_ {Parent}.
Arguments attributes_ {Parent}.
Arguments parent_ptr_ {Parent}.
Arguments value_property_callbacks_ {Parent}.
Arguments function_property_callbacks_ {Parent}.
Arguments initialize_callback_ {Parent}.
Arguments finalize_callback_ {Parent}.
Arguments has_property_callback_ {Parent}.
Arguments get_property_callback_ {Parent}.
Arguments set_property_callback_ {Parent}.
Arguments delete_property_callback_ {Parent}.
Arguments get_property_names_callback_ {Parent}.
Arguments call_as_function_with_this_callback_ {Parent}.
Arguments call_as_function_callback_ {Parent}.
Arguments call_as_constructor_callback_ {Parent}.
Arguments has_instance_callback_ {Parent}.
Arguments convert_to_type_callback_ {Parent}.

End JSNativeObjectDefinition.

Module JSNativeObject.

Inductive t : Type := mk {
  js_context_ : JSContext;
  js_native_object_definition_ : JSNativeObjectDefinition.t t;
  js_class_definition_ : JSClassDefinition.t;
  js_class_ : JSClass.t
}.

(** The names of the properties the class holds, value properties first. *)
Definition property_names (this : t) : list string :=
  map JSNativeObjectValuePropertyCallback.name
    (JSNativeObjectDefinition.value_property_callbacks_ (js_native_object_definition_ this))
  ++ map JSNativeObjectFunctionPropertyCallback.name
    (JSNativeObjectDefinition.function_property_callbacks_ (js_native_object_definition_ this)).

End JSNativeObject.

(** ** JSNativeObjectBuilder *)

Module JSNativeObjectBuilder.

(** The members, in the order the class declares them. *)
Record t : Type := mk {
  js_context_ : JSContext;
  class_name_ : JSString;
  attributes_ : list JSNativeObjectAttributes;
  parent_ptr_ : option JSNativeObject.t;
  value_property_callbacks_ : list JSNativeObjectValuePropertyCallback.t;
  function_property_callbacks_ : list JSNativeObjectFunctionPropertyCallback.t;
  initialize_callback_ : callback;
  finalize_callback_ : callback;
  has_property_callback_ : callback;
  get_property_callback_ : callback;
  set_property_callback_ : callback;
  delete_property_callback_ : callback;
  get_property_names_callback_ : callback;
  call_as_function_callback_ : callback;
  call_as_constructor_callback_ : callback;
  call_as_function_with_this_callback_ : callback;
  has_instance_callback_ : callback;
  convert_to_type_callback_ : callback
}.

(** The builder a constructor call leaves: the context it was given, and
    the default member initialisers. *)
Definition ctor (js_context : JSContext) : t :=
  mk js_context "" [] None [] [] None None None None None None None None None None None None.

(** *** Assignments to one member *)

Definition assign_js_context_ (v : JSContext) (b : t) : t :=
  let '(mk _ a1 a2 a3 a4 a5 a6 a7 a8 a9 a10 a11 a12 a13 a14 a15 a16 a17) := b in
  mk v a1 a2 a3 a4 a5 a6 a7 a8 a9 a10 a11 a12 a13 a14 a15 a16 a17.

Definition assign_class_name_ (v : JSString) (b : t) : t :=
  let '(mk a0 _ a2 a3 a4 a5 a6 a7 a8 a9 a10 a11 a12 a13 a14 a15 a16 a17) := b in
  mk a0 v a2 a3 a4 a5 a6 a7 a8 a9 a10 a11 a12 a13 a14 a15 a16 a17.

Definition assign_attributes_ (v : list JSNativeObjectAttributes) (b : t) : t :=
  let '(mk a0 a1 _ a3 a4 a5 a6 a7 a8 a9 a10 a11 a12 a13 a14 a15 a16 a17) := b in
  mk a0 a1 v a3 a4 a5 a6 a7 a8 a9 a10 a11 a12 a13 a14 a15 a16 a17.

Definition assign_parent_ptr_ (v : option JSNativeObject.t) (b : t) : t :=
  let '(mk a0 a1 a2 _ a4 a5 a6 a7 a8 a9 a10 a11 a12 a13 a14 a15 a16 a17) := b in
  mk a0 a1 a2 v a4 a5 a6 a7 a8 a9 a10 a11 a12 a13 a14 a15 a16 a17.

Definition assign_value_property_callbacks_ (v : list JSNativeObjectValuePropertyCallback.t) (b : t) : t :=
  let '(mk a0 a1 a2 a3 _ a5 a6 a7 a8 a9 a10 a11 a12 a13 a14 a15 a16 a17) := b in
  mk a0 a1 a2 a3 v a5 a6 a7 a8 a9 a10 a11 a12 a13 a14 a15 a16 a17.

Definition assign_function_property_callbacks_ (v : list JSNativeObjectFunctionPropertyCallback.t) (b : t) : t :=
  let '(mk a0 a1 a2 a3 a4 _ a6 a7 a8 a9 a10 a11 a12 a13 a14 a15 a16 a17) := b in
  mk a0 a1 a2 a3 a4 v a6 a7 a8 a9 a10 a11 a12 a13 a14 a15 a16 a17.

Definition assign_initialize_callback_ (v : callback) (b : t) : t :=
  let '(mk a0 a1 a2 a3 a4 a5 _ a7 a8 a9 a10 a11 a12 a13 a14 a15 a16 a17) := b in
  mk a0 a1 a2 a3 a4 a5 v a7 a8 a9 a10 a11 a12 a13 a14 a15 a16 a17.

Definition assign_finalize_callback_ (v : callback) (b : t) : t :=
  let '(mk a0 a1 a2 a3 a4 a5 a6 _ a8 a9 a10 a11 a12 a13 a14 a15 a16 a17) := b in
  mk a0 a1 a2 a3 a4 a5 a6 v a8 a9 a10 a11 a12 a13 a14 a15 a16 a17.

Definition assign_has_property_callback_ (v : callback) (b : t) : t :=
  let '(mk a0 a1 a2 a3 a4 a5 a6 a7 _ a9 a10 a11 a12 a13 a14 a15 a16 a17) := b in
  mk a0 a1 a2 a3 a4 a5 a6 a7 v a9 a10 a11 a12 a13 a14 a15 a16 a17.

Definition assign_get_property_callback_ (v : callback) (b : t) : t :=
  let '(mk a0 a1 a2 a3 a4 a5 a6 a7 a8 _ a10 a11 a12 a13 a14 a15 a16 a17) := b in
  mk a0 a1 a2 a3 a4 a5 a6 a7 a8 v a10 a11 a12 a13 a14 a15 a16 a17.

Definition assign_set_property_callback_ (v : callback) (b : t) : t :=
  let '(mk a0 a1 a2 a3 a4 a5 a6 a7 a8 a9 _ a11 a12 a13 a14 a15 a16 a17) := b in
  mk a0 a1 a2 a3 a4 a5 a6 a7 a8 a9 v a11 a12 a13 a14 a15 a16 a17.

Definition assign_delete_property_callback_ (v : callback) (b : t) : t :=
  let '(mk a0 a1 a2 a3 a4 a5 a6 a7 a8 a9 a10 _ a12 a13 a14 a15 a16 a17) := b in
  mk a0 a1 a2 a3 a4 a5 a6 a7 a8 a9 a10 v a12 a13 a14 a15 a16 a17.

Definition assign_get_property_names_callback_ (v : callback) (b : t) : t :=
  let '(mk a0 a1 a2 a3 a4 a5 a6 a7 a8 a9 a10 a11 _ a13 a14 a15 a16 a17) := b in
  mk a0 a1 a2 a3 a4 a5 a6 a7 a8 a9 a10 a11 v a13 a14 a15 a16 a17.

Definition assign_call_as_function_callback_ (v : callback) (b : t) : t :=
  let '(mk a0 a1 a2 a3 a4 a5 a6 a7 a8 a9 a10 a11 a12 _ a14 a15 a16 a17) := b in
  mk a0 a1 a2 a3 a4 a5 a6 a7 a8 a9 a10 a11 a12 v a14 a15 a16 a17.

Definition assign_call_as_constructor_callback_ (v : callback) (b : t) : t :=
  let '(mk a0 a1 a2 a3 a4 a5 a6 a7 a8 a9 a10 a11 a12 a13 _ a15 a16 a17) := b in
  mk a0 a1 a2 a3 a4 a5 a6 a7 a8 a9 a10 a11 a12 a13 v a15 a16 a17.

Definition assign_call_as_function_with_this_callback_ (v : callback) (b : t) : t :=
  let '(mk a0 a1 a2 a3 a4 a5 a6 a7 a8 a9 a10 a11 a12 a13 a14 _ a16 a17) := b in
  mk a0 a1 a2 a3 a4 a5 a6 a7 a8 a9 a10 a11 a12 a13 a14 v a16 a17.

Definition assign_has_instance_callback_ (v : callback) (b : t) : t :=
  let '(mk a0 a1 a2 a3 a4 a5 a6 a7 a8 a9 a10 a11 a12 a13 a14 a15 _ a17) := b in
  mk a0 a1 a2 a3 a4 a5 a6 a7 a8 a9 a10 a11 a12 a13 a14 a15 v a17.

Definition assign_convert_to_type_callback_ (v : callback) (b : t) : t :=
  let '(mk a0 a1 a2 a3 a4 a5 a6 a7 a8 a9 a10 a11 a12 a13 a14 a15 a16 _) := b in
  mk a0 a1 a2 a3 a4 a5 a6 a7 a8 a9 a10 a11 a12 a13 a14 a15 a16 v.

(** *** Builders as objects

    A builder lives at an address of the store; a member function takes
    the address [this] of its receiver and the store, and returns its
    result with the store it leaves.  A setter returns [*this], the
    address of its receiver.  A call on an address that holds no builder
    has no result. *)

Abbreviation ref := nat (only parsing).

(** A member function that reads its receiver and leaves the store. *)
Definition const_method {A : Type} (f : t → A) (this : ref)
    (σ : gmap nat t) : option (A * gmap nat t) :=
  match σ !! this with
  | Some b => Some (f b, σ)
  | None => None
  end.

(** A member function whose body assigns to members of its receiver and
    returns [*this]. *)
Definition setter (body : t → t) (this : ref)
    (σ : gmap nat t) : option (ref * gmap nat t) :=
  match σ !! this with
  | Some b => Some (this, <[this := body b]> σ)
  | None => None
  end.

(** *** Getters *)

Definition get_js_context : ref → gmap nat t → option (JSContext * gmap nat t) :=
  const_method js_context_.

Definition get_class_name : ref → gmap nat t → option (JSString * gmap nat t) :=
  const_method class_name_.

Definition get_attributes : ref → gmap nat t → option ((list JSNativeObjectAttributes) * gmap nat t) :=
  const_method attributes_.

Definition get_parent_ptr : ref → gmap nat t → option ((option JSNativeObject.t) * gmap nat t) :=
  const_method parent_ptr_.

Definition get_value_property_callbacks : ref → gmap nat t → option ((list JSNativeObjectValuePropertyCallback.t) * gmap nat t) :=
  const_method value_property_callbacks_.

Definition get_function_property_callbacks : ref → gmap nat t → option ((list JSNativeObjectFunctionPropertyCallback.t) * gmap nat t) :=
  const_method function_property_callbacks_.

Definition get_initialize_callback : ref → gmap nat t → option (callback * gmap nat t) :=
  const_method initialize_callback_.

Definition get_finalize_callback : ref → gmap nat t → option (callback * gmap nat t) :=
  const_method finalize_callback_.

Definition get_has_property_callback : ref → gmap nat t → option (callback * gmap nat t) :=
  const_method has_property_callback_.

Definition get_get_property_callback : ref → gmap nat t → option (callback * gmap nat t) :=
  const_method get_property_callback_.

Definition get_set_property_callback : ref → gmap nat t → option (callback * gmap nat t) :=
  const_method set_property_callback_.

Definition get_delete_property_callback : ref → gmap nat t → option (callback * gmap nat t) :=
  const_method delete_property_callback_.

Definition get_get_property_names_callback : ref → gmap nat t → option (callback * gmap nat t) :=
  const_method get_property_names_callback_.

Definition get_call_as_function_callback : ref → gmap nat t → option (callback * gmap nat t) :=
  const_method call_as_function_callback_.

Definition get_call_as_constructor_callback : ref → gmap nat t → option (callback * gmap nat t) :=
  const_method call_as_constructor_callback_.

Definition get_call_as_function_with_this_callback : ref → gmap nat t → option (callback * gmap nat t) :=
  const_method call_as_function_with_this_callback_.

Definition get_has_instance_callback : ref → gmap nat t → option (callback * gmap nat t) :=
  const_method has_instance_callback_.

Definition get_convert_to_type_callback : ref → gmap nat t → option (callback * gmap nat t) :=
  const_method convert_to_type_callback_.

(** *** Setters *)

(** [set_js_context(const JSContext& js_context_)], whose body is
    [js_context_ = js_context; return *this;].  The parameter carries the
    name of the member, so the left side of the assignment is the
    parameter, and the right side is a name nothing declares: no statement
    of the body writes the member, which keeps its value. *)
Definition set_js_context (js_context_ : JSContext) : ref → gmap nat t → option (ref * gmap nat t) :=
  setter (fun b => b).

Definition set_class_name (class_name : JSString) : ref → gmap nat t → option (ref * gmap nat t) :=
  setter (assign_class_name_ class_name).

Definition set_attributes (attributes : list JSNativeObjectAttributes) : ref → gmap nat t → option (ref * gmap nat t) :=
  setter (assign_attributes_ attributes).

Definition set_parent_ptr (parent_ptr : option JSNativeObject.t) : ref → gmap nat t → option (ref * gmap nat t) :=
  setter (assign_parent_ptr_ parent_ptr).

Definition set_value_property_callbacks (value_property_callbacks : list JSNativeObjectValuePropertyCallback.t) : ref → gmap nat t → option (ref * gmap nat t) :=
  setter (assign_value_property_callbacks_ value_property_callbacks).

Definition set_function_property_callbacks (function_property_callbacks : list JSNativeObjectFunctionPropertyCallback.t) : ref → gmap nat t → option (ref * gmap nat t) :=
  setter (assign_function_property_callbacks_ function_property_callbacks).

Definition set_initialize_callback (initialize_callback : callback) : ref → gmap nat t → option (ref * gmap nat t) :=
  setter (assign_initialize_callback_ initialize_callback).

Definition set_finalize_callback (finalize_callback : callback) : ref → gmap nat t → option (ref * gmap nat t) :=
  setter (assign_finalize_callback_ finalize_callback).

Definition set_has_property_callback (has_property_callback : callback) : ref → gmap nat t → option (ref * gmap nat t) :=
  setter (assign_has_property_callback_ has_property_callback).

Definition set_get_property_callback (get_property_callback : callback) : ref → gmap nat t → option (ref * gmap nat t) :=
  setter (assign_get_property_callback_ get_property_callback).

Definition set_set_property_callback (set_property_callback : callback) : ref → gmap nat t → option (ref * gmap nat t) :=
  setter (assign_set_property_callback_ set_property_callback).

Definition set_delete_property_callback (delete_property_callback : callback) : ref → gmap nat t → option (ref * gmap nat t) :=
  setter (assign_delete_property_callback_ delete_property_callback).

Definition set_get_property_names_callback (get_property_names_callback : callback) : ref → gmap nat t → option (ref * gmap nat t) :=
  setter (assign_get_property_names_callback_ get_property_names_callback).

Definition set_call_as_function_callback (call_as_function_callback : callback) : ref → gmap nat t → option (ref * gmap nat t) :=
  setter (assign_call_as_function_callback_ call_as_function_callback).

Definition set_call_as_constructor_callback (call_as_constructor_callback : callback) : ref → gmap nat t → option (ref * gmap nat t) :=
  setter (assign_call_as_constructor_callback_ call_as_constructor_callback).

Definition set_call_as_function_with_this_callback (call_as_function_with_this_callback : callback) : ref → gmap nat t → option (ref * gmap nat t) :=
  setter (assign_call_as_function_with_this_callback_ call_as_function_with_this_callback).

Definition set_has_instance_callback (has_instance_callback : callback) : ref → gmap nat t → option (ref * gmap nat t) :=
  setter (assign_has_instance_callback_ has_instance_callback).

Definition set_convert_to_type_callback (convert_to_type_callback : callback) : ref → gmap nat t → option (ref * gmap nat t) :=
  setter (assign_convert_to_type_callback_ convert_to_type_callback).

(** *** The get/set pairs, by member *)

Inductive member : Type :=
  | js_context
  | class_name
  | attributes
  | parent_ptr
  | value_property_callbacks
  | function_property_callbacks
  | initialize_callback
  | finalize_callback
  | has_property_callback
  | get_property_callback
  | set_property_callback
  | delete_property_callback
  | get_property_names_callback
  | call_as_function_callback
  | call_as_constructor_callback
  | call_as_function_with_this_callback
  | has_instance_callback
  | convert_to_type_callback.

Definition member_type (m : member) : Type :=
  match m with
  | js_context => JSContext
  | class_name => JSString
  | attributes => list JSNativeObjectAttributes
  | parent_ptr => option JSNativeObject.t
  | value_property_callbacks => list JSNativeObjectValuePropertyCallback.t
  | function_property_callbacks => list JSNativeObjectFunctionPropertyCallback.t
  | initialize_callback => callback
  | finalize_callback => callback
  | has_property_callback => callback
  | get_property_callback => callback
  | set_property_callback => callback
  | delete_property_callback => callback
  | get_property_names_callback => callback
  | call_as_function_callback => callback
  | call_as_constructor_callback => callback
  | call_as_function_with_this_callback => callback
  | has_instance_callback => callback
  | convert_to_type_callback => callback
  end.

Definition getter_of (m : member) : ref → gmap nat t → option (member_type m * gmap nat t) :=
  match m with
  | js_context => get_js_context
  | class_name => get_class_name
  | attributes => get_attributes
  | parent_ptr => get_parent_ptr
  | value_property_callbacks => get_value_property_callbacks
  | function_property_callbacks => get_function_property_callbacks
  | initialize_callback => get_initialize_callback
  | finalize_callback => get_finalize_callback
  | has_property_callback => get_has_property_callback
  | get_property_callback => get_get_property_callback
  | set_property_callback => get_set_property_callback
  | delete_property_callback => get_delete_property_callback
  | get_property_names_callback => get_get_property_names_callback
  | call_as_function_callback => get_call_as_function_callback
  | call_as_constructor_callback => get_call_as_constructor_callback
  | call_as_function_with_this_callback => get_call_as_function_with_this_callback
  | has_instance_callback => get_has_instance_callback
  | convert_to_type_callback => get_convert_to_type_callback
  end.

Definition setter_of (m : member) : member_type m → ref → gmap nat t → option (ref * gmap nat t) :=
  match m with
  | js_context => set_js_context
  | class_name => set_class_name
  | attributes => set_attributes
  | parent_ptr => set_parent_ptr
  | value_property_callbacks => set_value_property_callbacks
  | function_property_callbacks => set_function_property_callbacks
  | initialize_callback => set_initialize_callback
  | finalize_callback => set_finalize_callback
  | has_property_callback => set_has_property_callback
  | get_property_callback => set_get_property_callback
  | set_property_callback => set_set_property_callback
  | delete_property_callback => set_delete_property_callback
  | get_property_names_callback => set_get_property_names_callback
  | call_as_function_callback => set_call_as_function_callback
  | call_as_constructor_callback => set_call_as_constructor_callback
  | call_as_function_with_this_callback => set_call_as_function_with_this_callback
  | has_instance_callback => set_has_instance_callback
  | convert_to_type_callback => set_convert_to_type_callback
  end.

(** The member a getter reads. *)
Definition field_of (m : member) : t → member_type m :=
  match m with
  | js_context => js_context_
  | class_name => class_name_
  | attributes => attributes_
  | parent_ptr => parent_ptr_
  | value_property_callbacks => value_property_callbacks_
  | function_property_callbacks => function_property_callbacks_
  | initialize_callback => initialize_callback_
  | finalize_callback => finalize_callback_
  | has_property_callback => has_property_callback_
  | get_property_callback => get_property_callback_
  | set_property_callback => set_property_callback_
  | delete_property_callback => delete_property_callback_
  | get_property_names_callback => get_property_names_callback_
  | call_as_function_callback => call_as_function_callback_
  | call_as_constructor_callback => call_as_constructor_callback_
  | call_as_function_with_this_callback => call_as_function_with_this_callback_
  | has_instance_callback => has_instance_callback_
  | convert_to_type_callback => convert_to_type_callback_
  end.

(** The assignment the body of a setter makes; the body of
    [set_js_context] makes none. *)
Definition assign_of (m : member) : member_type m → t → t :=
  match m with
  | js_context => fun _ b => b
  | class_name => assign_class_name_
  | attributes => assign_attributes_
  | parent_ptr => assign_parent_ptr_
  | value_property_callbacks => assign_value_property_callbacks_
  | function_property_callbacks => assign_function_property_callbacks_
  | initialize_callback => assign_initialize_callback_
  | finalize_callback => assign_finalize_callback_
  | has_property_callback => assign_has_property_callback_
  | get_property_callback => assign_get_property_callback_
  | set_property_callback => assign_set_property_callback_
  | delete_property_callback => assign_delete_property_callback_
  | get_property_names_callback => assign_get_property_names_callback_
  | call_as_function_callback => assign_call_as_function_callback_
  | call_as_constructor_callback => assign_call_as_constructor_callback_
  | call_as_function_with_this_callback => assign_call_as_function_with_this_callback_
  | has_instance_callback => assign_has_instance_callback_
  | convert_to_type_callback => assign_convert_to_type_callback_
  end.

(** A call of a setter: the member and the argument. *)
Definition setter_call : Type := { m : member & member_type m }.

(** A chain [b.set_x(v1).set_y(v2)...]: each call is made on the reference
    the call before it returned. *)
Fixpoint chain (calls : list setter_call) (this : ref)
    (σ : gmap nat t) : option (ref * gmap nat t) :=
  match calls with
  | [] => Some (this, σ)
  | existT m v :: rest =>
      match setter_of m v this σ with
      | Some (r, σ') => chain rest r σ'
      | None => None
      end
  end.

(** The assignments of a list of calls, first call first. *)
Definition assign_all (calls : list setter_call) (b : t) : t :=
  fold_left (fun b' c => assign_of (projT1 c) (projT2 c) b') calls b.

(** *** Compiling a builder *)

(** [JSNativeObjectDefinition<T>::JSNativeObjectDefinition(builder)]: every
    member is copied from the builder's member of the same name, and the
    class name is copied once more into the buffer the class record
    points at. *)
Definition JSNativeObjectDefinition_ctor (builder : t)
    : JSNativeObjectDefinition.t JSNativeObject.t :=
  let class_name_ := class_name_ builder in
  JSNativeObjectDefinition.mk
    class_name_
    class_name_
    (attributes_ builder)
    (parent_ptr_ builder)
    (value_property_callbacks_ builder)
    (function_property_callbacks_ builder)
    (initialize_callback_ builder)
    (finalize_callback_ builder)
    (has_property_callback_ builder)
    (get_property_callback_ builder)
    (set_property_callback_ builder)
    (delete_property_callback_ builder)
    (get_property_names_callback_ builder)
    (call_as_function_with_this_callback_ builder)
    (call_as_function_callback_ builder)
    (call_as_constructor_callback_ builder)
    (has_instance_callback_ builder)
    (convert_to_type_callback_ builder).

Definition get_js_native_object_definition (this : t)
    : JSNativeObjectDefinition.t JSNativeObject.t :=
  let js_native_object_definition := JSNativeObjectDefinition_ctor this in
  js_native_object_definition.

(** The first loop of the constructor of [JSNativeObject]: every attribute
    of the set, in the order the range-for visits it, sets its bit in a
    [std::bitset<2>]. *)
Fixpoint set_attribute_bits (attributes : list JSNativeObjectAttributes)
    (native_object_attributes : Z) : result Z :=
  match attributes with
  | [] => inr native_object_attributes
  | native_object_attribute :: rest =>
      let bit_position := native_object_attribute in
      match bitset_set 2 native_object_attributes bit_position with
      | inl e => inl e
      | inr bits => set_attribute_bits rest bits
      end
  end.

(** The second loop of the constructor: its body is empty. *)
Definition visit_value_property_callbacks
    (callbacks : list JSNativeObjectValuePropertyCallback.t)
    (d : JSClassDefinition.t) : JSClassDefinition.t :=
  fold_left (fun d' _ => d') callbacks d.

Section Compile.

(** The value the member [js_class_definition_] has when the body of the
    constructor starts; the class declaration that initialises it is not
    among the sources. *)
Variable js_class_definition_init : JSClassDefinition.t.

(** [JSNativeObject<T>::JSNativeObject(builder)] *)
Definition JSNativeObject_ctor (builder : t) : result JSNativeObject.t :=
  let js_context := js_context_ builder in
  let js_native_object_definition := get_js_native_object_definition builder in
  match set_attribute_bits
          (JSNativeObjectDefinition.attributes_ js_native_object_definition) 0 with
  | inl e => inl e
  | inr native_object_attributes =>
      let d1 :=
        JSClassDefinition.set_attributes
          (bitset_to_ulong native_object_attributes) js_class_definition_init in
      let d2 :=
        JSClassDefinition.set_className
          (Some (JSNativeObjectDefinition.class_name_for_js_class_definition_
                   js_native_object_definition)) d1 in
      let d3 :=
        match JSNativeObjectDefinition.parent_ptr_ js_native_object_definition with
        | Some parent =>
            JSClassDefinition.set_parentClass
              (JSClass.js_class_ref_ (JSNativeObject.js_class_ parent)) d2
        | None => d2
        end in
      let d4 :=
        visit_value_property_callbacks
          (JSNativeObjectDefinition.value_property_callbacks_
             js_native_object_definition) d3 in
      let d5 :=
        if callable (JSNativeObjectDefinition.initialize_callback_
                       js_native_object_definition)
        then JSClassDefinition.set_initialize (Some JSObjectInitializeCallback) d4
        else d4 in
      inr (JSNativeObject.mk js_context js_native_object_definition d5
             (JSClass.ctor d5))
  end.

(** Modelled from the spec: the type [JSClass2] that [build] returns and
    its constructor from a builder, which are not among the sources.  By
    section 4.3 [build] is the compilation of the builder into the class;
    the constructor of [JSNativeObject] from a builder, defined in this
    header, is that compilation. *)
Definition JSClass2_ctor (builder : t) : result JSNativeObject.t :=
  JSNativeObject_ctor builder.

(** [build() const] *)
Definition build_const (this : t) : result JSNativeObject.t :=
  JSClass2_ctor this.

Definition build : ref → gmap nat t → option (result JSNativeObject.t * gmap nat t) :=
  const_method build_const.

End Compile.

(** The attribute mask the compilation algorithm describes: the bitwise
    OR, over the attribute set, of 2 raised to the attribute's ordinal. *)
Definition attribute_mask (attributes : list JSNativeObjectAttributes) : Z :=
  fold_right (fun a m => Z.lor (2 ^ a) m) 0 attributes.

(** The ordinals of the two-bit set. *)
Definition known_attribute (a : JSNativeObjectAttributes) : Prop := 0 ≤ a < 2.

(** Two builders hold equal snapshots: the definitions copied from them
    have the same class name, parent and callbacks, and their sets have
    the same members. *)
Definition equal_snapshots (b1 b2 : t) : Prop :=
  class_name_ b1 = class_name_ b2
  ∧ same_members (attributes_ b1) (attributes_ b2)
  ∧ parent_ptr_ b1 = parent_ptr_ b2
  ∧ same_members (value_property_callbacks_ b1) (value_property_callbacks_ b2)
  ∧ same_members (function_property_callbacks_ b1) (function_property_callbacks_ b2)
  ∧ initialize_callback_ b1 = initialize_callback_ b2
  ∧ finalize_callback_ b1 = finalize_callback_ b2
  ∧ has_property_callback_ b1 = has_property_callback_ b2
  ∧ get_property_callback_ b1 = get_property_callback_ b2
  ∧ set_property_callback_ b1 = set_property_callback_ b2
  ∧ delete_property_callback_ b1 = delete_property_callback_ b2
  ∧ get_property_names_callback_ b1 = get_property_names_callback_ b2
  ∧ call_as_function_callback_ b1 = call_as_function_callback_ b2
  ∧ call_as_constructor_callback_ b1 = call_as_constructor_callback_ b2
  ∧ call_as_function_with_this_callback_ b1 = call_as_function_with_this_callback_ b2
  ∧ has_instance_callback_ b1 = has_instance_callback_ b2
  ∧ convert_to_type_callback_ b1 = convert_to_type_callback_ b2.

(** A name that a value property and a function property share. *)
Definition name_collision (b : t) : Prop :=
  ∃ n, n ∈ map JSNativeObjectValuePropertyCallback.name (value_property_callbacks_ b)
     ∧ n ∈ map JSNativeObjectFunctionPropertyCallback.name (function_property_callbacks_ b).

End JSNativeObjectBuilder.

(** ** namespace HAL: JSArray *)

(** The conversions of [JSValue] that [JSArray.cpp] uses; [JSValue] is
    defined elsewhere and is a parameter here.  [uint32_t] is a [Z] in
    [0, 2^32). *)
Class JSValueOps (JSValue double : Type) : Type := {
  IsNumber : JSValue → bool;
  to_bool : JSValue → bool;
  to_string : JSValue → string;
  to_double : JSValue → double;
  to_int32_t : JSValue → Z;
  to_uint32_t : JSValue → Z;
  to_uint32_t_range : ∀ v, 0 ≤ to_uint32_t v < 2 ^ 32
}.

Module JSArray.

Section Array.

Context {JSValue double : Type} `{!JSValueOps JSValue double}.

(** A [JSArray] is a [JSObject]; the member functions of [JSObject] that
    [JSArray.cpp] calls are defined elsewhere, and an object is given by
    what they return on it. *)
Record t : Type := mk {
  HasProperty : string → bool;
  GetProperty : string → JSValue;
  GetPropertyAt : Z → JSValue
}.

(** [JSArray::GetLength() const HAL_NOEXCEPT] *)
Definition GetLength (this : t) : Z :=
  if negb (HasProperty this "length") then 0
  else
    let length := GetProperty this "length" in
    if negb (IsNumber length) then 0
    else to_uint32_t length.

(** [i++] on a [uint32_t] *)
Definition uint32_incr (i : Z) : Z := (i + 1) mod 2 ^ 32.

(** The loop the six conversion operators share,
    [for (uint32_t i = 0; i < length; i++) items.push_back(cast(GetProperty(i)))],
    run for at most [fuel] tests of its condition; [None] when the fuel
    runs out before the condition fails. *)
Fixpoint push_back_loop {A : Type} (cast : JSValue → A) (this : t)
    (fuel : nat) (i length : Z) (items : list A) : option (list A) :=
  match fuel with
  | O => None
  | S fuel' =>
      if i <? length
      then push_back_loop cast this fuel' (uint32_incr i) length
             (items ++ [cast (GetPropertyAt this i)])
      else Some items
  end.

Definition to_vector {A : Type} (cast : JSValue → A) (this : t) : option (list A) :=
  let length := GetLength this in
  let items := [] in
  push_back_loop cast this (S (Z.to_nat length)) 0 length items.

(** [operator std::vector<JSValue>()] *)
Definition to_vector_JSValue : t → option (list JSValue) := to_vector (fun v => v).

(** [operator std::vector<bool>()] *)
Definition to_vector_bool : t → option (list bool) := to_vector to_bool.

(** [operator std::vector<std::string>()] *)
Definition to_vector_string : t → option (list string) := to_vector to_string.

(** [operator std::vector<double>()] *)
Definition to_vector_double : t → option (list double) := to_vector to_double.

(** [operator std::vector<int32_t>()] *)
Definition to_vector_int32_t : t → option (list Z) := to_vector to_int32_t.

(** [operator std::vector<uint32_t>()] *)
Definition to_vector_uint32_t : t → option (list Z) := to_vector to_uint32_t.

(** What the conversion with [cast] should return: [items] has
    [GetLength] elements and its [i]-th is the cast of [GetProperty(i)]. *)
Definition converts {A : Type} (cast : JSValue → A) (this : t) (items : list A) : Prop :=
  Z.of_nat (length items) = GetLength this
  ∧ ∀ i : nat, Z.of_nat i < GetLength this →
      items !! i = Some (cast (GetPropertyAt this (Z.of_nat i))).

(** The object is an array of the values [values]: its ["length"] is a
    number that converts to their count, and its property [i] is the
    [i]-th of them. *)
Definition holds (this : t) (values : list JSValue) : Prop :=
  HasProperty this "length" = true
  ∧ IsNumber (GetProperty this "length") = true
  ∧ to_uint32_t (GetProperty this "length") = Z.of_nat (List.length values)
  ∧ ∀ (i : nat) (v : JSValue), values !! i = Some v → GetPropertyAt this (Z.of_nat i) = v.

(** Two objects have the same length and the same properties at the indices
    below it. *)
Definition same_elements (this other : t) : Prop :=
  GetLength this = GetLength other
  ∧ ∀ i : nat, Z.of_nat i < GetLength this →
      GetPropertyAt this (Z.of_nat i) = GetPropertyAt other (Z.of_nat i).

End Array.

Arguments t : clear implicits.

End JSArray.

(** ** Concrete callbacks, builders and arrays *)

Definition greet_a : JSExportNamedFunctionPropertyCallback.t :=
  JSExportNamedFunctionPropertyCallback.mk
    (JSPropertyCallback.mk "greet" [DontDelete]) (Some (member_function 1)).

Definition greet_b : JSExportNamedFunctionPropertyCallback.t :=
  JSExportNamedFunctionPropertyCallback.mk
    (JSPropertyCallback.mk "greet" [DontDelete]) (Some (member_function 2)).

(** The value property ["count"], read-only, whose getter is the member
    function 42. *)
Definition count_property : JSNativeObjectValuePropertyCallback.t :=
  JSNativeObjectValuePropertyCallback.mk
    (JSPropertyCallback.mk "count" [ReadOnly]) (Some (member_function 42)) None.

Definition unnamed_builder : JSNativeObjectBuilder.t :=
  JSNativeObjectBuilder.ctor 0%nat.

Definition counter_builder : JSNativeObjectBuilder.t :=
  JSNativeObjectBuilder.assign_value_property_callbacks_ [count_property]
    (JSNativeObjectBuilder.assign_class_name_ "Counter" (JSNativeObjectBuilder.ctor 0%nat)).

Definition greeter_builder : JSNativeObjectBuilder.t :=
  JSNativeObjectBuilder.assign_function_property_callbacks_ [greet_a] counter_builder.

(** A value property that carries the name of the function property
    [greet_a]. *)
Definition greet_value_property : JSNativeObjectValuePropertyCallback.t :=
  JSNativeObjectValuePropertyCallback.mk
    (JSPropertyCallback.mk "greet" []) (Some (member_function 3)) None.

Definition shared_name_builder : JSNativeObjectBuilder.t :=
  JSNativeObjectBuilder.assign_value_property_callbacks_ [greet_value_property]
    greeter_builder.

Definition unknown_attribute_builder : JSNativeObjectBuilder.t :=
  JSNativeObjectBuilder.assign_attributes_ [2] counter_builder.

Definition attributes_01_builder : JSNativeObjectBuilder.t :=
  JSNativeObjectBuilder.assign_attributes_ [0; 1] greeter_builder.

Definition attributes_10_builder : JSNativeObjectBuilder.t :=
  JSNativeObjectBuilder.assign_attributes_ [1; 0] greeter_builder.

(** A small value type for concrete arrays: numbers are integers. *)
Inductive sample_value : Type :=
  | sample_undefined
  | sample_number (z : Z)
  | sample_text (s : string).

Definition sample_to_uint32_t (v : sample_value) : Z :=
  match v with
  | sample_number z => z mod 2 ^ 32
  | _ => 0
  end.

Lemma sample_to_uint32_t_range (v : sample_value) : 0 ≤ sample_to_uint32_t v < 2 ^ 32.
Proof. destruct v; simpl; try lia. apply Z.mod_pos_bound. lia. Qed.

#[global] Instance sample_ops : JSValueOps sample_value Z := {|
  IsNumber v := match v with sample_number _ => true | _ => false end;
  to_bool v := match v with sample_number z => negb (z =? 0) | sample_text s => negb (bool_decide (s = "")) | _ => false end;
  to_string v := match v with sample_text s => s | _ => "" end;
  to_double v := match v with sample_number z => z | _ => 0 end;
  to_int32_t v := match v with sample_number z => (z + 2 ^ 31) mod 2 ^ 32 - 2 ^ 31 | _ => 0 end;
  to_uint32_t := sample_to_uint32_t;
  to_uint32_t_range := sample_to_uint32_t_range
|}.

(** The array [[10, "x", 30]]. *)
Definition sample_array : JSArray.t sample_value :=
  JSArray.mk
    (fun name => bool_decide (name = "length"))
    (fun name => if bool_decide (name = "length") then sample_number 3 else sample_undefined)
    (fun i => if i =? 0 then sample_number 10
              else if i =? 1 then sample_text "x"
              else if i =? 2 then sample_number 30
              else sample_undefined).

(** An object whose ["length"] is a string. *)
Definition sample_text_length : JSArray.t sample_value :=
  JSArray.mk
    (fun name => bool_decide (name = "length"))
    (fun name => sample_text "3")
    (fun i => sample_undefined).

(** The record the constructor leaves when the attributes set [bits]. *)
Definition compiled_record (init : JSClassDefinition.t) (b : JSNativeObjectBuilder.t)
    (bits : Z) : JSClassDefinition.t :=
  let d2 :=
    JSClassDefinition.set_className (Some (JSNativeObjectBuilder.class_name_ b))
      (JSClassDefinition.set_attributes bits init) in
  let d3 :=
    match JSNativeObjectBuilder.parent_ptr_ b with
    | Some parent =>
        JSClassDefinition.set_parentClass
          (JSClass.js_class_ref_ (JSNativeObject.js_class_ parent)) d2
    | None => d2
    end in
  if callable (JSNativeObjectBuilder.initialize_callback_ b)
  then JSClassDefinition.set_initialize (Some JSObjectInitializeCallback) d3
  else d3.

(** A function property named ["part"]. *)
Definition part_callback : JSExportNamedFunctionPropertyCallback.t :=
  JSExportNamedFunctionPropertyCallback.mk
    (JSPropertyCallback.mk "part" [ReadOnly; DontEnum]) (Some (member_function 5)).

(** The class the constructor builds from [counter_builder]. *)
Definition counter_class : JSNativeObject.t :=
  JSNativeObject.mk 0%nat
    (JSNativeObjectBuilder.JSNativeObjectDefinition_ctor counter_builder)
    (compiled_record JSClassDefinition.kJSClassDefinitionEmpty counter_builder 0)
    (JSClass.ctor
       (compiled_record JSClassDefinition.kJSClassDefinitionEmpty counter_builder 0)).

(** A builder whose parent is [counter_class] and that has an initialize
    callback and a finalize callback. *)
Definition derived_builder : JSNativeObjectBuilder.t :=
  JSNativeObjectBuilder.assign_finalize_callback_ (Some (member_function 8))
    (JSNativeObjectBuilder.assign_initialize_callback_ (Some (member_function 7))
       (JSNativeObjectBuilder.assign_parent_ptr_ (Some counter_class)
          (JSNativeObjectBuilder.assign_class_name_ "Derived"
             (JSNativeObjectBuilder.ctor 1%nat)))).

(** The array [[10, "x", 30]] with one more property above its length. *)
Definition sample_array_extended : JSArray.t sample_value :=
  JSArray.mk
    (JSArray.HasProperty sample_array)
    (JSArray.GetProperty sample_array)
    (fun i => if i =? 3 then sample_text "beyond" else JSArray.GetPropertyAt sample_array i).

(** * Properties *)

(** ** Function-property callbacks *)

Lemma unordered_set_eqb_same_members {A : Type} `{EqDecision A} (l r : list A) :
  unordered_set_eqb l r = true ↔ same_members l r.
Proof.
  unfold unordered_set_eqb, same_members.
  rewrite andb_true_iff, !forallb_forall.
  split.
  - intros [Hl Hr] x. split; intros Hx.
    + apply list_elem_of_In, Hl in Hx. by apply bool_decide_eq_true in Hx.
    + apply list_elem_of_In, Hr in Hx. by apply bool_decide_eq_true in Hx.
  - intros Hs. split; intros x Hx%list_elem_of_In; apply bool_decide_eq_true, Hs, Hx.
Qed.

Lemma JSPropertyCallback_eqb_spec (lhs rhs : JSPropertyCallback.t) :
  JSPropertyCallback.eqb lhs rhs = true
  ↔ JSPropertyCallback.property_name_ lhs = JSPropertyCallback.property_name_ rhs
    ∧ same_members (JSPropertyCallback.attributes_ lhs) (JSPropertyCallback.attributes_ rhs).
Proof.
  unfold JSPropertyCallback.eqb.
  by rewrite andb_true_iff, bool_decide_eq_true, unordered_set_eqb_same_members.
Qed.

(** C5, counterexample: the callback is not null and the name is empty; the
    constructor of the base class throws, so the construction does not
    succeed. *)
Lemma ctor_nonnull_callback_empty_name :
  ¬ (callable (Some (member_function 1)) = true →
     ∃ c, JSExportNamedFunctionPropertyCallback.ctor "" (Some (member_function 1)) [] = inr c
          ∧ JSExportNamedFunctionPropertyCallback.function_callback c = Some (member_function 1)).
Proof.
  intros H. destruct (H eq_refl) as (c & Hc & _).
  vm_compute in Hc. discriminate Hc.
Qed.

(** C5, amended: constructing a function-property callback with a null
    invocable fails with [invalid_argument] in the constructor itself; with a
    non-null invocable and a non-empty name, the construction succeeds and
    the callback holds that name, those attributes and that invocable. *)
Theorem function_callback_ctor_spec (function_name : string)
    (function_callback : callback) (attributes : list JSPropertyAttribute) :
  (callable function_callback = false →
     JSExportNamedFunctionPropertyCallback.ctor function_name function_callback attributes
     = inl invalid_argument)
  ∧ (callable function_callback = true → function_name ≠ "" →
     JSExportNamedFunctionPropertyCallback.ctor function_name function_callback attributes
     = inr (JSExportNamedFunctionPropertyCallback.mk
              (JSPropertyCallback.mk function_name attributes) function_callback)).
Proof.
  unfold JSExportNamedFunctionPropertyCallback.ctor, JSPropertyCallback.ctor.
  split.
  - intros Hnull. case_bool_decide; [done |]. by rewrite Hnull.
  - intros Hcb Hname. case_bool_decide; [done |]. by rewrite Hcb.
Qed.

Lemma function_callback_ctor_spec_witness :
  JSExportNamedFunctionPropertyCallback.ctor "greet" None [DontDelete] = inl invalid_argument
  ∧ JSExportNamedFunctionPropertyCallback.ctor "greet" (Some (member_function 1)) [DontDelete]
    = inr greet_a.
Proof.
  split.
  - apply (proj1 (function_callback_ctor_spec "greet" None [DontDelete])). reflexivity.
  - apply (proj2 (function_callback_ctor_spec "greet" (Some (member_function 1)) [DontDelete])).
    + reflexivity.
    + discriminate.
Defined.

(** C6, counterexample: two function-property callbacks with the same name
    and attributes and different non-null bound callbacks compare equal. *)
Lemma eqb_ignores_callback_identity :
  ¬ (JSExportNamedFunctionPropertyCallback.eqb greet_a greet_b = true
     ↔ JSExportNamedFunctionPropertyCallback.agree greet_a greet_b).
Proof.
  intros [Hto _].
  assert (He : JSExportNamedFunctionPropertyCallback.eqb greet_a greet_b = true)
    by reflexivity.
  destruct (Hto He) as (_ & _ & Hcb). discriminate Hcb.
Qed.

(** C6, amended: two function-property callbacks are equal exactly when
    their names agree, their attribute sets agree, and their bound callbacks
    are both null or both non-null; the identity of a non-null bound
    callback is not compared. *)
Theorem function_callback_eqb_spec (lhs rhs : JSExportNamedFunctionPropertyCallback.t) :
  JSExportNamedFunctionPropertyCallback.eqb lhs rhs = true
  ↔ JSExportNamedFunctionPropertyCallback.name lhs = JSExportNamedFunctionPropertyCallback.name rhs
    ∧ same_members (JSExportNamedFunctionPropertyCallback.attributes lhs)
        (JSExportNamedFunctionPropertyCallback.attributes rhs)
    ∧ callable (JSExportNamedFunctionPropertyCallback.function_callback__ lhs)
      = callable (JSExportNamedFunctionPropertyCallback.function_callback__ rhs).
Proof.
  unfold JSExportNamedFunctionPropertyCallback.eqb,
    JSExportNamedFunctionPropertyCallback.name,
    JSExportNamedFunctionPropertyCallback.attributes.
  destruct (callable (JSExportNamedFunctionPropertyCallback.function_callback__ lhs)),
    (callable (JSExportNamedFunctionPropertyCallback.function_callback__ rhs)); simpl;
    rewrite ?JSPropertyCallback_eqb_spec; intuition (try discriminate).
Qed.

(** Callbacks that went through the constructor are never null, and for
    them equality is equality of the name and of the attribute set. *)
Lemma eqb_of_constructed (lhs rhs : JSExportNamedFunctionPropertyCallback.t) :
  callable (JSExportNamedFunctionPropertyCallback.function_callback__ lhs) = true →
  callable (JSExportNamedFunctionPropertyCallback.function_callback__ rhs) = true →
  JSExportNamedFunctionPropertyCallback.eqb lhs rhs
  = JSPropertyCallback.eqb (JSExportNamedFunctionPropertyCallback.base lhs)
      (JSExportNamedFunctionPropertyCallback.base rhs).
Proof.
  intros Hl Hr. unfold JSExportNamedFunctionPropertyCallback.eqb. by rewrite Hl, Hr.
Qed.

(** ** The attribute bitset *)

Lemma bitset_set_known (bits pos : Z) :
  JSNativeObjectBuilder.known_attribute pos →
  bitset_set 2 bits pos = inr (Z.lor bits (2 ^ pos)).
Proof.
  intros [H0 H2]. unfold bitset_set.
  destruct (Z.leb_spec 0 pos); [| lia].
  destruct (Z.ltb_spec pos 2); [| lia].
  simpl. by rewrite Z.shiftl_1_l.
Qed.

Lemma bitset_set_unknown (bits pos : Z) :
  ¬ JSNativeObjectBuilder.known_attribute pos →
  bitset_set 2 bits pos = inl out_of_range.
Proof.
  intros Hn. unfold bitset_set, JSNativeObjectBuilder.known_attribute in *.
  destruct (Z.leb_spec 0 pos), (Z.ltb_spec pos 2); simpl; try reflexivity.
  lia.
Qed.

Lemma known_attribute_cases (a : Z) :
  JSNativeObjectBuilder.known_attribute a ∨ ¬ JSNativeObjectBuilder.known_attribute a.
Proof. unfold JSNativeObjectBuilder.known_attribute. lia. Qed.

(** The loop either sets every bit, or stops at the first attribute that is
    not a position of the bitset. *)
Lemma set_attribute_bits_cases (attributes : list Z) (bits : Z) :
  (Forall JSNativeObjectBuilder.known_attribute attributes
   ∧ JSNativeObjectBuilder.set_attribute_bits attributes bits
     = inr (Z.lor bits (JSNativeObjectBuilder.attribute_mask attributes)))
  ∨ (¬ Forall JSNativeObjectBuilder.known_attribute attributes
     ∧ JSNativeObjectBuilder.set_attribute_bits attributes bits = inl out_of_range).
Proof.
  revert bits. induction attributes as [| a rest IH]; intros bits; simpl.
  - left. split; [constructor |]. by rewrite Z.lor_0_r.
  - destruct (known_attribute_cases a) as [Ha | Ha].
    + rewrite (bitset_set_known _ _ Ha).
      destruct (IH (Z.lor bits (2 ^ a))) as [[Hall Heq] | [Hnot Heq]].
      * left. split; [by constructor |]. rewrite Heq. by rewrite Z.lor_assoc.
      * right. split; [| done]. intros Hall. apply Hnot. by inversion Hall.
    + rewrite (bitset_set_unknown _ _ Ha). right. split; [| done].
      intros Hall. apply Ha. by inversion Hall.
Qed.

(** Each attribute is one bit of the mask. *)
Lemma attribute_mask_testbit (attributes : list Z) (i : Z) :
  Forall JSNativeObjectBuilder.known_attribute attributes →
  Z.testbit (JSNativeObjectBuilder.attribute_mask attributes) i = true ↔ i ∈ attributes.
Proof.
  induction 1 as [| a rest Ha Hrest IH]; simpl.
  - rewrite Z.bits_0. split; [discriminate | intros H; inversion H].
  - rewrite Z.lor_spec, orb_true_iff, IH, elem_of_cons.
    destruct Ha as [Ha0 _]. rewrite (Z.pow2_bits_eqb a i Ha0), Z.eqb_eq.
    intuition congruence.
Qed.

Lemma attribute_mask_same_members (l r : list Z) :
  Forall JSNativeObjectBuilder.known_attribute l →
  Forall JSNativeObjectBuilder.known_attribute r →
  same_members l r →
  JSNativeObjectBuilder.attribute_mask l = JSNativeObjectBuilder.attribute_mask r.
Proof.
  intros Hl Hr Hs. apply Z.bits_inj'. intros i _.
  apply eq_true_iff_eq.
  by rewrite (attribute_mask_testbit l i Hl), (attribute_mask_testbit r i Hr).
Qed.

Lemma Forall_same_members {A : Type} (P : A → Prop) (l r : list A) :
  same_members l r → Forall P l → Forall P r.
Proof.
  intros Hs. rewrite !Forall_forall. intros Hl x Hx. apply Hl, Hs, Hx.
Qed.

(** ** What the constructor writes into the class record *)

Lemma visit_value_property_callbacks_id
    (callbacks : list JSNativeObjectValuePropertyCallback.t) (d : JSClassDefinition.t) :
  JSNativeObjectBuilder.visit_value_property_callbacks callbacks d = d.
Proof.
  unfold JSNativeObjectBuilder.visit_value_property_callbacks.
  revert d. induction callbacks as [| c rest IH]; intros d; simpl; [done | apply IH].
Qed.

Lemma compiled_record_attributes init b bits :
  JSClassDefinition.attributes (compiled_record init b bits) = bits.
Proof.
  unfold compiled_record.
  destruct init, (JSNativeObjectBuilder.parent_ptr_ b),
    (callable (JSNativeObjectBuilder.initialize_callback_ b)); reflexivity.
Qed.

Lemma compiled_record_tables init b bits :
  JSClassDefinition.staticValues (compiled_record init b bits)
  = JSClassDefinition.staticValues init
  ∧ JSClassDefinition.staticFunctions (compiled_record init b bits)
    = JSClassDefinition.staticFunctions init
  ∧ JSClassDefinition.getProperty (compiled_record init b bits)
    = JSClassDefinition.getProperty init
  ∧ JSClassDefinition.setProperty (compiled_record init b bits)
    = JSClassDefinition.setProperty init
  ∧ JSClassDefinition.callAsFunction (compiled_record init b bits)
    = JSClassDefinition.callAsFunction init.
Proof.
  unfold compiled_record.
  destruct init, (JSNativeObjectBuilder.parent_ptr_ b),
    (callable (JSNativeObjectBuilder.initialize_callback_ b)); repeat split.
Qed.

(** The constructor, case by case on the attribute set. *)
Lemma JSNativeObject_ctor_known init (b : JSNativeObjectBuilder.t) :
  Forall JSNativeObjectBuilder.known_attribute (JSNativeObjectBuilder.attributes_ b) →
  JSNativeObjectBuilder.JSNativeObject_ctor init b
  = inr (JSNativeObject.mk (JSNativeObjectBuilder.js_context_ b)
           (JSNativeObjectBuilder.JSNativeObjectDefinition_ctor b)
           (compiled_record init b
              (JSNativeObjectBuilder.attribute_mask (JSNativeObjectBuilder.attributes_ b)))
           (JSClass.ctor
              (compiled_record init b
                 (JSNativeObjectBuilder.attribute_mask (JSNativeObjectBuilder.attributes_ b))))).
Proof.
  intros Hall. unfold JSNativeObjectBuilder.JSNativeObject_ctor,
    JSNativeObjectBuilder.get_js_native_object_definition.
  cbn [JSNativeObjectBuilder.JSNativeObjectDefinition_ctor
       JSNativeObjectDefinition.attributes_].
  destruct (set_attribute_bits_cases (JSNativeObjectBuilder.attributes_ b) 0)
    as [[_ Heq] | [Hnot _]]; [| done].
  rewrite Heq, Z.lor_0_l. cbn. rewrite visit_value_property_callbacks_id.
  reflexivity.
Qed.

Lemma JSNativeObject_ctor_unknown init (b : JSNativeObjectBuilder.t) :
  ¬ Forall JSNativeObjectBuilder.known_attribute (JSNativeObjectBuilder.attributes_ b) →
  JSNativeObjectBuilder.JSNativeObject_ctor init b = inl out_of_range.
Proof.
  intros Hnot. unfold JSNativeObjectBuilder.JSNativeObject_ctor,
    JSNativeObjectBuilder.get_js_native_object_definition.
  cbn [JSNativeObjectBuilder.JSNativeObjectDefinition_ctor
       JSNativeObjectDefinition.attributes_].
  destruct (set_attribute_bits_cases (JSNativeObjectBuilder.attributes_ b) 0)
    as [[Hall _] | [_ Heq]]; [done |].
  by rewrite Heq.
Qed.

(** ** Compilation of a builder *)

(** C3, counterexample: the attribute set holds the ordinal 2, which is not a
    position of the two-bit set; the construction does not fail with
    [invalid_argument]. *)
Lemma unknown_attribute_not_invalid_argument :
  ¬ (¬ JSNativeObjectBuilder.known_attribute 2 →
     JSNativeObjectBuilder.JSNativeObject_ctor
       JSClassDefinition.kJSClassDefinitionEmpty unknown_attribute_builder
     = inl invalid_argument).
Proof.
  intros H.
  assert (Hn : ¬ JSNativeObjectBuilder.known_attribute 2)
    by (unfold JSNativeObjectBuilder.known_attribute; lia).
  specialize (H Hn). vm_compute in H. discriminate H.
Qed.

(** C3, amended: when every attribute of the definition is an ordinal of the
    two-bit set, the attribute mask of the compiled class is the bitwise OR,
    over the attribute set, of 2 raised to the attribute's ordinal, and bit
    [i] of the mask is set exactly when [i] is in the set; when some
    attribute ordinal is outside the range, the construction fails with
    [out_of_range], the error of [std::bitset::set]. *)
Theorem attribute_mask_compiled (init : JSClassDefinition.t) (b : JSNativeObjectBuilder.t) :
  (Forall JSNativeObjectBuilder.known_attribute (JSNativeObjectBuilder.attributes_ b) →
     ∃ c, JSNativeObjectBuilder.JSNativeObject_ctor init b = inr c
          ∧ JSClassDefinition.attributes (JSNativeObject.js_class_definition_ c)
            = JSNativeObjectBuilder.attribute_mask (JSNativeObjectBuilder.attributes_ b)
          ∧ ∀ i, Z.testbit (JSClassDefinition.attributes (JSNativeObject.js_class_definition_ c)) i
                 = true ↔ i ∈ JSNativeObjectBuilder.attributes_ b)
  ∧ (¬ Forall JSNativeObjectBuilder.known_attribute (JSNativeObjectBuilder.attributes_ b) →
     JSNativeObjectBuilder.JSNativeObject_ctor init b = inl out_of_range).
Proof.
  split.
  - intros Hall. eexists. split; [by apply JSNativeObject_ctor_known |].
    cbn [JSNativeObject.js_class_definition_]. rewrite compiled_record_attributes.
    split; [done |]. intros i. by apply attribute_mask_testbit.
  - apply JSNativeObject_ctor_unknown.
Qed.

Lemma attribute_mask_compiled_witness :
  (∃ c, JSNativeObjectBuilder.JSNativeObject_ctor
          JSClassDefinition.kJSClassDefinitionEmpty attributes_10_builder = inr c
        ∧ JSClassDefinition.attributes (JSNativeObject.js_class_definition_ c) = 3)
  ∧ JSNativeObjectBuilder.JSNativeObject_ctor
      JSClassDefinition.kJSClassDefinitionEmpty unknown_attribute_builder
    = inl out_of_range.
Proof.
  split.
  - destruct (proj1 (attribute_mask_compiled
                JSClassDefinition.kJSClassDefinitionEmpty attributes_10_builder))
      as (c & Hc & Hmask & _).
    + repeat constructor; simpl; lia.
    + exists c. split; [exact Hc | exact Hmask].
  - apply (proj2 (attribute_mask_compiled
             JSClassDefinition.kJSClassDefinitionEmpty unknown_attribute_builder)).
    intros Hall. inversion Hall as [| a rest Ha _].
    unfold JSNativeObjectBuilder.known_attribute in Ha. lia.
Defined.

(** C4: two builders that hold equal snapshots compile alike: either both
    constructions fail with the same error, or both succeed and the two
    classes have the same attribute mask and the same property names. *)
Theorem compile_deterministic (init : JSClassDefinition.t)
    (b1 b2 : JSNativeObjectBuilder.t) :
  JSNativeObjectBuilder.equal_snapshots b1 b2 →
  match JSNativeObjectBuilder.JSNativeObject_ctor init b1,
        JSNativeObjectBuilder.JSNativeObject_ctor init b2 with
  | inr c1, inr c2 =>
      JSClassDefinition.attributes (JSNativeObject.js_class_definition_ c1)
      = JSClassDefinition.attributes (JSNativeObject.js_class_definition_ c2)
      ∧ same_members (JSNativeObject.property_names c1) (JSNativeObject.property_names c2)
  | inl e1, inl e2 => e1 = e2
  | _, _ => False
  end.
Proof.
  intros (_ & Hattr & _ & Hval & Hfun & _).
  destruct (set_attribute_bits_cases (JSNativeObjectBuilder.attributes_ b1) 0)
    as [[Hall1 _] | [Hnot1 _]].
  - assert (Hall2 := Forall_same_members _ _ _ Hattr Hall1).
    rewrite (JSNativeObject_ctor_known init b1 Hall1),
      (JSNativeObject_ctor_known init b2 Hall2).
    cbn [JSNativeObject.js_class_definition_]. rewrite !compiled_record_attributes.
    split; [by apply attribute_mask_same_members |].
    unfold JSNativeObject.property_names. cbn.
    intros n. rewrite !elem_of_app, !list_elem_of_fmap.
    split; (intros [(x & -> & Hx) | (x & -> & Hx)];
      [left; exists x; split; [done | by apply Hval]
      | right; exists x; split; [done | by apply Hfun]]).
  - assert (Hnot2 : ¬ Forall JSNativeObjectBuilder.known_attribute
                        (JSNativeObjectBuilder.attributes_ b2)).
    { intros Hall2. apply Hnot1. apply (Forall_same_members _ _ _ (λ x, symmetry (Hattr x)) Hall2). }
    by rewrite (JSNativeObject_ctor_unknown init b1 Hnot1),
      (JSNativeObject_ctor_unknown init b2 Hnot2).
Qed.

Lemma equal_snapshots_01_10 :
  JSNativeObjectBuilder.equal_snapshots attributes_01_builder attributes_10_builder.
Proof.
  unfold JSNativeObjectBuilder.equal_snapshots, same_members. cbn.
  repeat split; try tauto; rewrite !elem_of_cons; tauto.
Defined.

Lemma compile_deterministic_witness :
  JSNativeObjectBuilder.equal_snapshots attributes_01_builder attributes_10_builder
  ∧ match JSNativeObjectBuilder.JSNativeObject_ctor
            JSClassDefinition.kJSClassDefinitionEmpty attributes_01_builder,
          JSNativeObjectBuilder.JSNativeObject_ctor
            JSClassDefinition.kJSClassDefinitionEmpty attributes_10_builder with
    | inr c1, inr c2 =>
        JSClassDefinition.attributes (JSNativeObject.js_class_definition_ c1)
        = JSClassDefinition.attributes (JSNativeObject.js_class_definition_ c2)
        ∧ same_members (JSNativeObject.property_names c1) (JSNativeObject.property_names c2)
    | inl e1, inl e2 => e1 = e2
    | _, _ => False
    end.
Proof.
  split.
  - exact equal_snapshots_01_10.
  - apply (compile_deterministic JSClassDefinition.kJSClassDefinitionEmpty
             attributes_01_builder attributes_10_builder equal_snapshots_01_10).
Defined.

(** C1, counterexample: a builder whose class name was never set holds the
    empty name; [build] does not fail on it. *)
Lemma build_accepts_empty_class_name :
  ¬ (JSNativeObjectBuilder.class_name_ unnamed_builder = "" →
     JSNativeObjectBuilder.build_const JSClassDefinition.kJSClassDefinitionEmpty unnamed_builder
     = inl invalid_argument).
Proof.
  intros H. specialize (H eq_refl). vm_compute in H. discriminate H.
Qed.

(** C1, amended: [build] does not look at the class name.  For every builder
    whose attributes are ordinals of the two-bit set and whose value
    properties and function properties share no name, be its class name
    empty or not, [build] succeeds, and the compiled class holds the
    builder's class name and both of its callback sets; so for a builder
    with two distinct property names both properties are present in the
    compiled class. *)
Theorem build_succeeds (init : JSClassDefinition.t) (b : JSNativeObjectBuilder.t) :
  Forall JSNativeObjectBuilder.known_attribute (JSNativeObjectBuilder.attributes_ b) →
  ¬ JSNativeObjectBuilder.name_collision b →
  ∃ c, JSNativeObjectBuilder.build_const init b = inr c
       ∧ JSNativeObjectDefinition.class_name_ (JSNativeObject.js_native_object_definition_ c)
         = JSNativeObjectBuilder.class_name_ b
       ∧ JSNativeObjectDefinition.value_property_callbacks_
           (JSNativeObject.js_native_object_definition_ c)
         = JSNativeObjectBuilder.value_property_callbacks_ b
       ∧ JSNativeObjectDefinition.function_property_callbacks_
           (JSNativeObject.js_native_object_definition_ c)
         = JSNativeObjectBuilder.function_property_callbacks_ b
       ∧ ∀ n, n ∈ JSNativeObject.property_names c
              ↔ n ∈ map JSNativeObjectValuePropertyCallback.name
                      (JSNativeObjectBuilder.value_property_callbacks_ b)
                ∨ n ∈ map JSNativeObjectFunctionPropertyCallback.name
                        (JSNativeObjectBuilder.function_property_callbacks_ b).
Proof.
  intros Hall _. eexists.
  unfold JSNativeObjectBuilder.build_const, JSNativeObjectBuilder.JSClass2_ctor.
  split; [by apply JSNativeObject_ctor_known |].
  repeat split; try reflexivity.
  - unfold JSNativeObject.property_names. cbn. by rewrite elem_of_app.
  - unfold JSNativeObject.property_names. cbn. by rewrite elem_of_app.
Qed.

Lemma greeter_builder_no_collision : ¬ JSNativeObjectBuilder.name_collision greeter_builder.
Proof.
  intros (n & Hv & Hf). cbn in Hv, Hf.
  apply list_elem_of_singleton in Hv. apply list_elem_of_singleton in Hf.
  rewrite Hv in Hf. discriminate Hf.
Defined.

Lemma build_succeeds_witness :
  ∃ c, JSNativeObjectBuilder.build_const JSClassDefinition.kJSClassDefinitionEmpty greeter_builder
       = inr c
       ∧ "count" ∈ JSNativeObject.property_names c
       ∧ "greet" ∈ JSNativeObject.property_names c.
Proof.
  destruct (build_succeeds JSClassDefinition.kJSClassDefinitionEmpty greeter_builder)
    as (c & Hc & _ & _ & _ & Hnames).
  - constructor.
  - exact greeter_builder_no_collision.
  - exists c. split; [exact Hc |]. split; apply Hnames; cbn.
    + left. apply list_elem_of_singleton. reflexivity.
    + right. apply list_elem_of_singleton. reflexivity.
Defined.

(** A builder with an empty class name builds. *)
Lemma build_unnamed_builder :
  ∃ c, JSNativeObjectBuilder.build_const JSClassDefinition.kJSClassDefinitionEmpty unnamed_builder
       = inr c
       ∧ JSClassDefinition.className (JSNativeObject.js_class_definition_ c) = Some "".
Proof. eexists. split; reflexivity. Qed.

(** A builder whose value property and function property are both named
    ["greet"] builds as well, and the class holds both. *)
Example build_shared_name_builder :
  JSNativeObjectBuilder.name_collision shared_name_builder
  ∧ ∃ c, JSNativeObjectBuilder.build_const JSClassDefinition.kJSClassDefinitionEmpty
           shared_name_builder = inr c
         ∧ JSNativeObject.property_names c = ["greet"; "greet"].
Proof.
  split.
  - exists "greet". split; cbn; apply list_elem_of_singleton; reflexivity.
  - eexists. split; reflexivity.
Qed.

(** C2, at the builder with the one value property ["count"]: the class is
    built, and the class record has no table of static values, no table of
    static functions and no get-property callback; nothing in the record
    leads to the getter of ["count"]. *)
Theorem counter_builder_registers_nothing :
  ∃ c, JSNativeObjectBuilder.build_const JSClassDefinition.kJSClassDefinitionEmpty counter_builder
       = inr c
       ∧ JSNativeObjectDefinition.value_property_callbacks_
           (JSNativeObject.js_native_object_definition_ c) = [count_property]
       ∧ JSClassDefinition.staticValues (JSNativeObject.js_class_definition_ c) = None
       ∧ JSClassDefinition.staticFunctions (JSNativeObject.js_class_definition_ c) = None
       ∧ JSClassDefinition.getProperty (JSNativeObject.js_class_definition_ c) = None
       ∧ ("count" ∉ static_value_names (JSNativeObject.js_class_definition_ c))
       ∧ JSNativeObject.js_class_ c = JSClass.ctor (JSNativeObject.js_class_definition_ c).
Proof.
  eexists. split; [reflexivity |].
  repeat split. cbn. apply not_elem_of_nil.
Qed.

(** For every builder, the static tables and the property callbacks of the
    class record are the ones the record had before the constructor ran. *)
Lemma compile_keeps_static_tables (init : JSClassDefinition.t)
    (b : JSNativeObjectBuilder.t) (c : JSNativeObject.t) :
  JSNativeObjectBuilder.JSNativeObject_ctor init b = inr c →
  JSClassDefinition.staticValues (JSNativeObject.js_class_definition_ c)
  = JSClassDefinition.staticValues init
  ∧ JSClassDefinition.staticFunctions (JSNativeObject.js_class_definition_ c)
    = JSClassDefinition.staticFunctions init
  ∧ JSClassDefinition.getProperty (JSNativeObject.js_class_definition_ c)
    = JSClassDefinition.getProperty init.
Proof.
  intros Hc.
  destruct (set_attribute_bits_cases (JSNativeObjectBuilder.attributes_ b) 0)
    as [[Hall _] | [Hnot _]].
  - rewrite (JSNativeObject_ctor_known init b Hall) in Hc. injection Hc as <-.
    cbn [JSNativeObject.js_class_definition_].
    destruct (compiled_record_tables init b
                (JSNativeObjectBuilder.attribute_mask (JSNativeObjectBuilder.attributes_ b)))
      as (Hv & Hf & Hg & _).
    by rewrite Hv, Hf, Hg.
  - rewrite (JSNativeObject_ctor_unknown init b Hnot) in Hc. discriminate Hc.
Qed.

(** ** The builder as an object *)

Lemma setter_returns_this (body : JSNativeObjectBuilder.t → JSNativeObjectBuilder.t)
    (this : nat) (σ : gmap nat JSNativeObjectBuilder.t) (b : JSNativeObjectBuilder.t) :
  σ !! this = Some b →
  JSNativeObjectBuilder.setter body this σ = Some (this, <[this := body b]> σ).
Proof. intros Hb. unfold JSNativeObjectBuilder.setter. by rewrite Hb. Qed.

(** A setter leaves every other builder of the store as it was. *)
Lemma setter_frame (body : JSNativeObjectBuilder.t → JSNativeObjectBuilder.t)
    (this other : nat) (σ σ' : gmap nat JSNativeObjectBuilder.t) (r : nat) :
  JSNativeObjectBuilder.setter body this σ = Some (r, σ') →
  other ≠ this → σ' !! other = σ !! other.
Proof.
  unfold JSNativeObjectBuilder.setter. destruct (σ !! this) as [b |] eqn:Hb; [| done].
  intros [= <- <-] Hne. by rewrite lookup_insert_ne.
Qed.

(** [set_class_name] returns its receiver and overwrites the class name; the
    last write wins. *)
Lemma set_class_name_overwrites (this : nat) (σ : gmap nat JSNativeObjectBuilder.t)
    (b : JSNativeObjectBuilder.t) (n1 n2 : JSString) :
  σ !! this = Some b →
  ∃ σ1 σ2,
    JSNativeObjectBuilder.set_class_name n1 this σ = Some (this, σ1)
    ∧ JSNativeObjectBuilder.set_class_name n2 this σ1 = Some (this, σ2)
    ∧ JSNativeObjectBuilder.get_class_name this σ2 = Some (n2, σ2)
    ∧ σ2 !! this = Some (JSNativeObjectBuilder.assign_class_name_ n2 b).
Proof.
  intros Hb. unfold JSNativeObjectBuilder.set_class_name.
  rewrite (setter_returns_this _ _ _ _ Hb).
  do 2 eexists. split; [done |].
  rewrite (setter_returns_this _ this _ _ (lookup_insert_eq σ this _)).
  rewrite insert_insert_eq. split; [done |].
  unfold JSNativeObjectBuilder.get_class_name, JSNativeObjectBuilder.const_method.
  rewrite lookup_insert_eq. by destruct b.
Qed.

(** [set_value_property_callbacks] returns its receiver and replaces the
    whole set: nothing of the set written before is kept. *)
Lemma set_value_property_callbacks_replaces (this : nat)
    (σ : gmap nat JSNativeObjectBuilder.t) (b : JSNativeObjectBuilder.t)
    (s1 s2 : list JSNativeObjectValuePropertyCallback.t) :
  σ !! this = Some b →
  ∃ σ1 σ2,
    JSNativeObjectBuilder.set_value_property_callbacks s1 this σ = Some (this, σ1)
    ∧ JSNativeObjectBuilder.set_value_property_callbacks s2 this σ1 = Some (this, σ2)
    ∧ JSNativeObjectBuilder.get_value_property_callbacks this σ2 = Some (s2, σ2)
    ∧ σ2 !! this = Some (JSNativeObjectBuilder.assign_value_property_callbacks_ s2 b).
Proof.
  intros Hb. unfold JSNativeObjectBuilder.set_value_property_callbacks.
  rewrite (setter_returns_this _ _ _ _ Hb).
  do 2 eexists. split; [done |].
  rewrite (setter_returns_this _ this _ _ (lookup_insert_eq σ this _)).
  rewrite insert_insert_eq. split; [done |].
  unfold JSNativeObjectBuilder.get_value_property_callbacks,
    JSNativeObjectBuilder.const_method.
  rewrite lookup_insert_eq. by destruct b.
Qed.

Ltac unfold_accessors :=
  cbv beta delta [JSNativeObjectBuilder.get_js_context JSNativeObjectBuilder.set_js_context
    JSNativeObjectBuilder.get_class_name JSNativeObjectBuilder.set_class_name
    JSNativeObjectBuilder.get_attributes JSNativeObjectBuilder.set_attributes
    JSNativeObjectBuilder.get_parent_ptr JSNativeObjectBuilder.set_parent_ptr
    JSNativeObjectBuilder.get_value_property_callbacks JSNativeObjectBuilder.set_value_property_callbacks
    JSNativeObjectBuilder.get_function_property_callbacks JSNativeObjectBuilder.set_function_property_callbacks
    JSNativeObjectBuilder.get_initialize_callback JSNativeObjectBuilder.set_initialize_callback
    JSNativeObjectBuilder.get_finalize_callback JSNativeObjectBuilder.set_finalize_callback
    JSNativeObjectBuilder.get_has_property_callback JSNativeObjectBuilder.set_has_property_callback
    JSNativeObjectBuilder.get_get_property_callback JSNativeObjectBuilder.set_get_property_callback
    JSNativeObjectBuilder.get_set_property_callback JSNativeObjectBuilder.set_set_property_callback
    JSNativeObjectBuilder.get_delete_property_callback JSNativeObjectBuilder.set_delete_property_callback
    JSNativeObjectBuilder.get_get_property_names_callback JSNativeObjectBuilder.set_get_property_names_callback
    JSNativeObjectBuilder.get_call_as_function_callback JSNativeObjectBuilder.set_call_as_function_callback
    JSNativeObjectBuilder.get_call_as_constructor_callback JSNativeObjectBuilder.set_call_as_constructor_callback
    JSNativeObjectBuilder.get_call_as_function_with_this_callback JSNativeObjectBuilder.set_call_as_function_with_this_callback
    JSNativeObjectBuilder.get_has_instance_callback JSNativeObjectBuilder.set_has_instance_callback
    JSNativeObjectBuilder.get_convert_to_type_callback JSNativeObjectBuilder.set_convert_to_type_callback
    JSNativeObjectBuilder.getter_of JSNativeObjectBuilder.setter_of] iota.

(** X5: every setter other than [set_js_context] returns its receiver and
    overwrites its member: the getter of that member then returns the value
    written, every other getter returns what it returned before, and a
    second call of the setter leaves the store the second call alone would
    leave. *)
Lemma setters_overwrite (m : JSNativeObjectBuilder.member)
    (v : JSNativeObjectBuilder.member_type m) (this : nat)
    (σ : gmap nat JSNativeObjectBuilder.t) (b : JSNativeObjectBuilder.t) :
  m ≠ JSNativeObjectBuilder.js_context →
  σ !! this = Some b →
  ∃ σ', JSNativeObjectBuilder.setter_of m v this σ = Some (this, σ')
        ∧ JSNativeObjectBuilder.getter_of m this σ' = Some (v, σ')
        ∧ (∀ m', m' ≠ m →
             fst <$> JSNativeObjectBuilder.getter_of m' this σ'
             = fst <$> JSNativeObjectBuilder.getter_of m' this σ)
        ∧ (∀ v2, JSNativeObjectBuilder.setter_of m v2 this σ'
                 = JSNativeObjectBuilder.setter_of m v2 this σ).
Proof.
  intros Hm Hb.
  destruct m; try done; unfold_accessors;
    (eexists; split; [by apply setter_returns_this |];
     split;
       [ unfold JSNativeObjectBuilder.const_method; rewrite lookup_insert_eq; by destruct b
       | split;
           [ intros m' Hm'; destruct m'; try done; unfold_accessors;
             unfold JSNativeObjectBuilder.const_method;
             rewrite lookup_insert_eq, Hb; by destruct b
           | intros v2; unfold JSNativeObjectBuilder.setter;
             rewrite lookup_insert_eq, Hb, insert_insert_eq; by destruct b ] ]).
Qed.

(** C7, at [set_js_context]: the setter returns its receiver, and the
    context of the builder is the one it had before the call, not the one
    the call was given. *)
Theorem set_js_context_keeps_context :
  let σ : gmap nat JSNativeObjectBuilder.t := {[ 0%nat := JSNativeObjectBuilder.ctor 7%nat ]} in
  ∃ σ', JSNativeObjectBuilder.set_js_context 9%nat 0%nat σ = Some (0%nat, σ')
        ∧ JSNativeObjectBuilder.get_js_context 0%nat σ' = Some (7%nat, σ')
        ∧ JSNativeObjectBuilder.get_js_context 0%nat σ' ≠ Some (9%nat, σ').
Proof.
  intros σ. unfold JSNativeObjectBuilder.set_js_context.
  rewrite (setter_returns_this _ 0%nat σ (JSNativeObjectBuilder.ctor 7%nat));
    [| by apply lookup_singleton_eq].
  eexists. split; [done |].
  unfold JSNativeObjectBuilder.get_js_context, JSNativeObjectBuilder.const_method.
  rewrite lookup_insert_eq. split; [done |]. intros [= H].
Qed.

(** C8: [build] on a builder of the store returns the compilation of that
    builder and leaves the store as it was, so every member of the builder
    keeps its value and a second [build] returns the same; a class built
    before a later call of a setter is the compilation of the builder as it
    was, and a [build] after that call compiles the builder as the setter
    left it. *)
Theorem build_leaves_builder (init : JSClassDefinition.t) (this : nat)
    (σ : gmap nat JSNativeObjectBuilder.t) (b : JSNativeObjectBuilder.t) :
  σ !! this = Some b →
  ∃ r, JSNativeObjectBuilder.build init this σ = Some (r, σ)
       ∧ r = JSNativeObjectBuilder.build_const init b
       ∧ (∀ r' σ', JSNativeObjectBuilder.build init this σ = Some (r', σ') →
            σ' = σ ∧ σ' !! this = Some b
            ∧ JSNativeObjectBuilder.build init this σ' = Some (r, σ'))
       ∧ (∀ n σ1, JSNativeObjectBuilder.set_class_name n this σ = Some (this, σ1) →
            JSNativeObjectBuilder.build init this σ1
            = Some (JSNativeObjectBuilder.build_const init
                      (JSNativeObjectBuilder.assign_class_name_ n b), σ1)).
Proof.
  intros Hb. unfold JSNativeObjectBuilder.build, JSNativeObjectBuilder.const_method.
  rewrite Hb. eexists. split; [reflexivity |]. split; [reflexivity |]. split.
  - intros r' σ' [= <- <-]. by rewrite Hb.
  - intros n σ1. unfold JSNativeObjectBuilder.set_class_name.
    rewrite (setter_returns_this _ _ _ _ Hb). intros [= <-].
    by rewrite lookup_insert_eq.
Qed.

Lemma build_leaves_builder_witness :
  let σ : gmap nat JSNativeObjectBuilder.t := {[ 0%nat := greeter_builder ]} in
  ∃ r, JSNativeObjectBuilder.build JSClassDefinition.kJSClassDefinitionEmpty 0%nat σ
       = Some (r, σ).
Proof.
  intros σ.
  destruct (build_leaves_builder JSClassDefinition.kJSClassDefinitionEmpty 0%nat σ
              greeter_builder) as (r & Hr & _).
  - apply lookup_singleton_eq.
  - exists r. exact Hr.
Defined.

(** ** JSArray *)

Section ArrayProperties.

Context {JSValue double : Type} `{!JSValueOps JSValue double}.

Lemma GetLength_range (this : JSArray.t JSValue) : 0 ≤ JSArray.GetLength this < 2 ^ 32.
Proof.
  unfold JSArray.GetLength.
  destruct (JSArray.HasProperty this "length"); simpl; [| lia].
  destruct (IsNumber (JSArray.GetProperty this "length")); simpl; [| lia].
  apply to_uint32_t_range.
Qed.

(** C9: [GetLength] is a total function of the object, it throws nothing;
    it returns 0 when the object has no ["length"] property and when that
    property is not a number, and otherwise the ["length"] property
    converted to [uint32_t], which lies in [0, 2^32). *)
Theorem GetLength_spec (this : JSArray.t JSValue) :
  (JSArray.HasProperty this "length" = false → JSArray.GetLength this = 0)
  ∧ (JSArray.HasProperty this "length" = true →
     IsNumber (JSArray.GetProperty this "length") = false →
     JSArray.GetLength this = 0)
  ∧ (JSArray.HasProperty this "length" = true →
     IsNumber (JSArray.GetProperty this "length") = true →
     JSArray.GetLength this = to_uint32_t (JSArray.GetProperty this "length"))
  ∧ 0 ≤ JSArray.GetLength this < 2 ^ 32.
Proof.
  unfold JSArray.GetLength. repeat split.
  - by intros ->.
  - by intros -> ->.
  - by intros -> ->.
  - apply (GetLength_range this).
  - apply (GetLength_range this).
Qed.

(** The invariant of the loop: [items] holds the casts of the properties
    below [i].  With more fuel than indices left, the loop leaves through
    its condition, and the counter never wraps. *)
Lemma push_back_loop_spec {A : Type} (cast : JSValue → A) (this : JSArray.t JSValue)
    (length : Z) (fuel : nat) (i : Z) (items : list A) :
  length < 2 ^ 32 →
  0 ≤ i ≤ length →
  length - i < Z.of_nat fuel →
  Z.of_nat (List.length items) = i →
  (∀ k : nat, Z.of_nat k < i →
     items !! k = Some (cast (JSArray.GetPropertyAt this (Z.of_nat k)))) →
  ∃ items', JSArray.push_back_loop cast this fuel i length items = Some items'
            ∧ Z.of_nat (List.length items') = length
            ∧ ∀ k : nat, Z.of_nat k < length →
                items' !! k = Some (cast (JSArray.GetPropertyAt this (Z.of_nat k))).
Proof.
  intros Hmax. revert i items.
  induction fuel as [| fuel IH]; intros i items Hi Hfuel Hlen Hitems.
  - lia.
  - simpl. destruct (Z.ltb_spec i length) as [Hlt | Hge].
    + assert (Hincr : JSArray.uint32_incr i = i + 1).
      { unfold JSArray.uint32_incr. apply Z.mod_small. lia. }
      rewrite Hincr. apply IH.
      * lia.
      * lia.
      * rewrite length_app. simpl. lia.
      * intros k Hk. destruct (decide (Z.of_nat k < i)) as [Hki | Hki].
        -- rewrite lookup_app_l by lia. by apply Hitems.
        -- assert (Hkeq : k = List.length items) by lia.
           rewrite Hkeq, list_lookup_middle by done.
           by rewrite Hlen.
    + exists items. split; [reflexivity |]. split; [lia |].
      intros k Hk. apply Hitems. lia.
Qed.

Lemma to_vector_spec {A : Type} (cast : JSValue → A) (this : JSArray.t JSValue) :
  ∃ items, JSArray.to_vector cast this = Some items ∧ JSArray.converts cast this items.
Proof.
  unfold JSArray.to_vector, JSArray.converts.
  pose proof (GetLength_range this) as [H0 Hmax].
  apply push_back_loop_spec; simpl; lia.
Qed.

(** C10: each of the six conversions to [std::vector] returns, and the
    vector it returns has [GetLength] elements, the [i]-th of which is the
    conversion of [GetProperty(i)], for every [i] below [GetLength], in
    increasing order of [i]. *)
Theorem to_vector_conversions (this : JSArray.t JSValue) :
  (∃ items, JSArray.to_vector_JSValue this = Some items
            ∧ JSArray.converts (fun v => v) this items)
  ∧ (∃ items, JSArray.to_vector_bool this = Some items
              ∧ JSArray.converts to_bool this items)
  ∧ (∃ items, JSArray.to_vector_string this = Some items
              ∧ JSArray.converts to_string this items)
  ∧ (∃ items, JSArray.to_vector_double this = Some items
              ∧ JSArray.converts to_double this items)
  ∧ (∃ items, JSArray.to_vector_int32_t this = Some items
              ∧ JSArray.converts to_int32_t this items)
  ∧ (∃ items, JSArray.to_vector_uint32_t this = Some items
              ∧ JSArray.converts to_uint32_t this items).
Proof.
  split; [| split; [| split; [| split; [| split]]]].
  - apply (to_vector_spec (fun v => v) this).
  - apply (to_vector_spec to_bool this).
  - apply (to_vector_spec to_string this).
  - apply (to_vector_spec to_double this).
  - apply (to_vector_spec to_int32_t this).
  - apply (to_vector_spec to_uint32_t this).
Qed.

End ArrayProperties.

Lemma GetLength_spec_witness :
  JSArray.GetLength sample_array = 3 ∧ JSArray.GetLength sample_text_length = 0.
Proof.
  split.
  - exact (proj1 (proj2 (proj2 (GetLength_spec sample_array))) eq_refl eq_refl).
  - exact (proj1 (proj2 (GetLength_spec sample_text_length)) eq_refl eq_refl).
Defined.

Example to_vector_sample_array :
  JSArray.to_vector_JSValue sample_array
  = Some [sample_number 10; sample_text "x"; sample_number 30]
  ∧ JSArray.to_vector_uint32_t sample_array = Some [10; 0; 30]
  ∧ JSArray.to_vector_string sample_array = Some [""; "x"; ""]
  ∧ JSArray.to_vector_bool sample_text_length = Some [].
Proof. repeat split; reflexivity. Qed.


(** * Further properties of the code *)

(** ** The function-property callback *)

Lemma JSPropertyCallback_eqb_refl (x : JSPropertyCallback.t) :
  JSPropertyCallback.eqb x x = true.
Proof. apply JSPropertyCallback_eqb_spec. split; [reflexivity | by intros a]. Qed.

Lemma JSPropertyCallback_eqb_sym (x y : JSPropertyCallback.t) :
  JSPropertyCallback.eqb x y = JSPropertyCallback.eqb y x.
Proof.
  apply eq_true_iff_eq. rewrite !JSPropertyCallback_eqb_spec. unfold same_members.
  split; intros [Hn Ha]; (split; [by symmetry | intros a; by symmetry]).
Qed.

Lemma JSPropertyCallback_eqb_trans (x y z : JSPropertyCallback.t) :
  JSPropertyCallback.eqb x y = true → JSPropertyCallback.eqb y z = true →
  JSPropertyCallback.eqb x z = true.
Proof.
  rewrite !JSPropertyCallback_eqb_spec. unfold same_members.
  intros [Hn1 Ha1] [Hn2 Ha2]. split; [congruence |].
  intros a. by rewrite Ha1.
Qed.

(** X1: a function-property callback that the constructor returns holds the
    name, the attributes and the invocable it was given, its invocable is
    not null and its name is not empty; a construction that fails fails
    with [invalid_argument], and only for an empty name or a null
    invocable. *)
Theorem function_callback_ctor_cases (function_name : string)
    (function_callback : callback) (attributes : list JSPropertyAttribute) :
  match JSExportNamedFunctionPropertyCallback.ctor function_name function_callback attributes with
  | inr c =>
      callable (JSExportNamedFunctionPropertyCallback.function_callback c) = true
      ∧ JSExportNamedFunctionPropertyCallback.function_callback c = function_callback
      ∧ JSExportNamedFunctionPropertyCallback.name c = function_name
      ∧ JSExportNamedFunctionPropertyCallback.attributes c = attributes
      ∧ function_name ≠ ""
  | inl e =>
      e = invalid_argument ∧ (function_name = "" ∨ callable function_callback = false)
  end.
Proof.
  unfold JSExportNamedFunctionPropertyCallback.ctor, JSPropertyCallback.ctor.
  case_bool_decide as Hname.
  - split; [reflexivity | by left].
  - destruct (callable function_callback) eqn:Hcb; simpl.
    + by repeat split.
    + split; [reflexivity | by right].
Qed.

(** X2: [operator==] of function-property callbacks is an equivalence
    relation, and [operator!=] is irreflexive and symmetric. *)
Theorem function_callback_eqb_equivalence :
  (∀ x, JSExportNamedFunctionPropertyCallback.eqb x x = true)
  ∧ (∀ x y, JSExportNamedFunctionPropertyCallback.eqb x y
            = JSExportNamedFunctionPropertyCallback.eqb y x)
  ∧ (∀ x y z, JSExportNamedFunctionPropertyCallback.eqb x y = true →
              JSExportNamedFunctionPropertyCallback.eqb y z = true →
              JSExportNamedFunctionPropertyCallback.eqb x z = true)
  ∧ (∀ x, JSExportNamedFunctionPropertyCallback.neqb x x = false)
  ∧ (∀ x y, JSExportNamedFunctionPropertyCallback.neqb x y
            = JSExportNamedFunctionPropertyCallback.neqb y x).
Proof.
  assert (Hrefl : ∀ x, JSExportNamedFunctionPropertyCallback.eqb x x = true).
  { intros x. unfold JSExportNamedFunctionPropertyCallback.eqb.
    destruct (callable (JSExportNamedFunctionPropertyCallback.function_callback__ x));
      simpl; apply JSPropertyCallback_eqb_refl. }
  assert (Hsym : ∀ x y, JSExportNamedFunctionPropertyCallback.eqb x y
                        = JSExportNamedFunctionPropertyCallback.eqb y x).
  { intros x y. unfold JSExportNamedFunctionPropertyCallback.eqb.
    destruct (callable (JSExportNamedFunctionPropertyCallback.function_callback__ x)),
      (callable (JSExportNamedFunctionPropertyCallback.function_callback__ y));
      simpl; try reflexivity; apply JSPropertyCallback_eqb_sym. }
  split; [exact Hrefl |]. split; [exact Hsym |]. split; [| split].
  - intros x y z. unfold JSExportNamedFunctionPropertyCallback.eqb.
    destruct (callable (JSExportNamedFunctionPropertyCallback.function_callback__ x)),
      (callable (JSExportNamedFunctionPropertyCallback.function_callback__ y)),
      (callable (JSExportNamedFunctionPropertyCallback.function_callback__ z));
      simpl; try discriminate; apply JSPropertyCallback_eqb_trans.
  - intros x. unfold JSExportNamedFunctionPropertyCallback.neqb. by rewrite Hrefl.
  - intros x y. unfold JSExportNamedFunctionPropertyCallback.neqb. by rewrite Hsym.
Qed.

Lemma function_callback_eqb_equivalence_witness :
  JSExportNamedFunctionPropertyCallback.eqb greet_b greet_b = true.
Proof.
  apply (proj1 (proj2 (proj2 function_callback_eqb_equivalence)) greet_b greet_a greet_b);
    reflexivity.
Defined.

(** X3: [swap] exchanges the bound callbacks of the two objects and nothing
    else: each object keeps its own name and attributes; a second [swap]
    restores both objects, and the free function does what the member
    function does. *)
Theorem swap_exchanges_callbacks (a b : JSExportNamedFunctionPropertyCallback.t) :
  let a' := fst (JSExportNamedFunctionPropertyCallback.swap a b) in
  let b' := snd (JSExportNamedFunctionPropertyCallback.swap a b) in
  JSExportNamedFunctionPropertyCallback.name a' = JSExportNamedFunctionPropertyCallback.name a
  ∧ JSExportNamedFunctionPropertyCallback.attributes a'
    = JSExportNamedFunctionPropertyCallback.attributes a
  ∧ JSExportNamedFunctionPropertyCallback.name b' = JSExportNamedFunctionPropertyCallback.name b
  ∧ JSExportNamedFunctionPropertyCallback.attributes b'
    = JSExportNamedFunctionPropertyCallback.attributes b
  ∧ JSExportNamedFunctionPropertyCallback.function_callback a'
    = JSExportNamedFunctionPropertyCallback.function_callback b
  ∧ JSExportNamedFunctionPropertyCallback.function_callback b'
    = JSExportNamedFunctionPropertyCallback.function_callback a
  ∧ JSExportNamedFunctionPropertyCallback.swap a' b' = (a, b)
  ∧ JSExportNamedFunctionPropertyCallback.swap_free a b = (a', b').
Proof. destruct a, b. cbn. repeat split. Qed.

(** X4: for two callbacks whose invocables are not null, as the constructor
    leaves them, [swap] cannot be seen through [operator==]: each object
    still compares equal to what it was before, though it now holds the
    invocable of the other. *)
Theorem swap_unseen_by_eqb (a b : JSExportNamedFunctionPropertyCallback.t) :
  callable (JSExportNamedFunctionPropertyCallback.function_callback__ a) = true →
  callable (JSExportNamedFunctionPropertyCallback.function_callback__ b) = true →
  JSExportNamedFunctionPropertyCallback.eqb
    (fst (JSExportNamedFunctionPropertyCallback.swap a b)) a = true
  ∧ JSExportNamedFunctionPropertyCallback.eqb
      (snd (JSExportNamedFunctionPropertyCallback.swap a b)) b = true.
Proof.
  intros Ha Hb. unfold JSExportNamedFunctionPropertyCallback.eqb. cbn.
  rewrite Ha, Hb. cbn. split; apply JSPropertyCallback_eqb_refl.
Qed.

Lemma swap_unseen_by_eqb_witness :
  JSExportNamedFunctionPropertyCallback.eqb
    (fst (JSExportNamedFunctionPropertyCallback.swap greet_a part_callback)) greet_a = true
  ∧ JSExportNamedFunctionPropertyCallback.function_callback
      (fst (JSExportNamedFunctionPropertyCallback.swap greet_a part_callback))
    = Some (member_function 5).
Proof.
  split.
  - apply (proj1 (swap_unseen_by_eqb greet_a part_callback eq_refl eq_refl)).
  - reflexivity.
Defined.

(** ** The builder: setters, chains and [build] *)

Lemma setter_of_store (m : JSNativeObjectBuilder.member)
    (v : JSNativeObjectBuilder.member_type m) (this : nat)
    (σ : gmap nat JSNativeObjectBuilder.t) (b : JSNativeObjectBuilder.t) :
  σ !! this = Some b →
  JSNativeObjectBuilder.setter_of m v this σ
  = Some (this, <[this := JSNativeObjectBuilder.assign_of m v b]> σ).
Proof.
  intros Hb. destruct m; unfold_accessors; by apply setter_returns_this.
Qed.

Lemma getter_of_store (m : JSNativeObjectBuilder.member) (this : nat)
    (σ : gmap nat JSNativeObjectBuilder.t) (b : JSNativeObjectBuilder.t) :
  σ !! this = Some b →
  JSNativeObjectBuilder.getter_of m this σ
  = Some (JSNativeObjectBuilder.field_of m b, σ).
Proof.
  intros Hb. destruct m; unfold_accessors;
    unfold JSNativeObjectBuilder.const_method; by rewrite Hb.
Qed.

Lemma field_of_assign_of (m : JSNativeObjectBuilder.member)
    (v : JSNativeObjectBuilder.member_type m) (b : JSNativeObjectBuilder.t) :
  m ≠ JSNativeObjectBuilder.js_context →
  JSNativeObjectBuilder.field_of m (JSNativeObjectBuilder.assign_of m v b) = v.
Proof. intros Hm. destruct m; try done; by destruct b. Qed.

Lemma field_of_assign_of_other (m m' : JSNativeObjectBuilder.member)
    (v : JSNativeObjectBuilder.member_type m) (b : JSNativeObjectBuilder.t) :
  m' = JSNativeObjectBuilder.js_context ∨ m' ≠ m →
  JSNativeObjectBuilder.field_of m' (JSNativeObjectBuilder.assign_of m v b)
  = JSNativeObjectBuilder.field_of m' b.
Proof.
  intros [-> | Hne].
  - destruct m; by destruct b.
  - destruct m, m'; try done; by destruct b.
Qed.

Lemma assign_of_commute (m m' : JSNativeObjectBuilder.member)
    (v : JSNativeObjectBuilder.member_type m) (v' : JSNativeObjectBuilder.member_type m')
    (b : JSNativeObjectBuilder.t) :
  m ≠ m' →
  JSNativeObjectBuilder.assign_of m' v' (JSNativeObjectBuilder.assign_of m v b)
  = JSNativeObjectBuilder.assign_of m v (JSNativeObjectBuilder.assign_of m' v' b).
Proof. intros Hne. destruct m, m'; try done; by destruct b. Qed.

Lemma chain_store (calls : list JSNativeObjectBuilder.setter_call) (this : nat)
    (σ : gmap nat JSNativeObjectBuilder.t) (b : JSNativeObjectBuilder.t) :
  σ !! this = Some b →
  JSNativeObjectBuilder.chain calls this σ
  = Some (this, <[this := JSNativeObjectBuilder.assign_all calls b]> σ).
Proof.
  revert σ b. induction calls as [| [m v] rest IH]; intros σ b Hb; simpl.
  - by rewrite insert_id.
  - rewrite (setter_of_store m v this σ b Hb).
    rewrite (IH _ (JSNativeObjectBuilder.assign_of m v b)) by apply lookup_insert_eq.
    by rewrite insert_insert_eq.
Qed.

Lemma field_of_assign_all (calls : list JSNativeObjectBuilder.setter_call)
    (m : JSNativeObjectBuilder.member) (b : JSNativeObjectBuilder.t) :
  m = JSNativeObjectBuilder.js_context ∨ (∀ c, c ∈ calls → projT1 c ≠ m) →
  JSNativeObjectBuilder.field_of m (JSNativeObjectBuilder.assign_all calls b)
  = JSNativeObjectBuilder.field_of m b.
Proof.
  unfold JSNativeObjectBuilder.assign_all.
  revert b. induction calls as [| [m' v'] rest IH]; intros b Hm; simpl; [done |].
  rewrite IH.
  - apply field_of_assign_of_other. destruct Hm as [-> | Hm]; [by left | right].
    intros Heq. apply (Hm (existT m' v')); [apply list_elem_of_here | by symmetry].
  - destruct Hm as [-> | Hm]; [by left | right].
    intros c Hc. by apply Hm, list_elem_of_further.
Qed.

Lemma assign_all_snoc (calls : list JSNativeObjectBuilder.setter_call)
    (c : JSNativeObjectBuilder.setter_call) (b : JSNativeObjectBuilder.t) :
  JSNativeObjectBuilder.assign_all (calls ++ [c]) b
  = JSNativeObjectBuilder.assign_of (projT1 c) (projT2 c)
      (JSNativeObjectBuilder.assign_all calls b).
Proof. unfold JSNativeObjectBuilder.assign_all. by rewrite fold_left_app. Qed.

Lemma setters_overwrite_witness :
  let σ : gmap nat JSNativeObjectBuilder.t := {[ 4%nat := counter_builder ]} in
  ∃ σ', JSNativeObjectBuilder.set_class_name "Renamed" 4%nat σ = Some (4%nat, σ')
        ∧ JSNativeObjectBuilder.get_class_name 4%nat σ' = Some ("Renamed", σ').
Proof.
  intros σ.
  destruct (setters_overwrite JSNativeObjectBuilder.class_name "Renamed" 4%nat σ counter_builder)
    as (σ' & Hset & Hget & _).
  - discriminate.
  - apply lookup_singleton_eq.
  - exists σ'. split; [exact Hset | exact Hget].
Defined.

(** X6: two setters of different members commute: a chain of the two calls
    leaves the same store in either order. *)
Theorem setters_commute (m m' : JSNativeObjectBuilder.member)
    (v : JSNativeObjectBuilder.member_type m) (v' : JSNativeObjectBuilder.member_type m')
    (this : nat) (σ : gmap nat JSNativeObjectBuilder.t) :
  m ≠ m' →
  JSNativeObjectBuilder.chain [existT m v; existT m' v'] this σ
  = JSNativeObjectBuilder.chain [existT m' v'; existT m v] this σ.
Proof.
  intros Hne. destruct (σ !! this) as [b |] eqn:Hb.
  - rewrite !(chain_store _ this σ b Hb). cbn. by rewrite assign_of_commute.
  - cbn. destruct m, m'; unfold_accessors; unfold JSNativeObjectBuilder.setter;
      by rewrite Hb.
Qed.

Lemma setters_commute_witness :
  let σ : gmap nat JSNativeObjectBuilder.t := {[ 4%nat := counter_builder ]} in
  JSNativeObjectBuilder.chain
    [existT JSNativeObjectBuilder.class_name ("Renamed" : JSString);
     existT JSNativeObjectBuilder.attributes ([1] : list JSNativeObjectAttributes)] 4%nat σ
  = JSNativeObjectBuilder.chain
      [existT JSNativeObjectBuilder.attributes ([1] : list JSNativeObjectAttributes);
       existT JSNativeObjectBuilder.class_name ("Renamed" : JSString)] 4%nat σ.
Proof.
  intros σ.
  apply (setters_commute JSNativeObjectBuilder.class_name JSNativeObjectBuilder.attributes
           ("Renamed" : JSString) ([1] : list JSNativeObjectAttributes) 4%nat σ).
  discriminate.
Defined.

(** X7: a chain of setter calls on a builder returns that builder and
    changes no other builder of the store; a member that no call of the
    chain names, and the context, read as before the chain; the member the
    last call names reads as the value of that call. *)
Theorem chain_spec (calls : list JSNativeObjectBuilder.setter_call) (this : nat)
    (σ : gmap nat JSNativeObjectBuilder.t) (b : JSNativeObjectBuilder.t) :
  σ !! this = Some b →
  ∃ σ', JSNativeObjectBuilder.chain calls this σ = Some (this, σ')
        ∧ (∀ other, other ≠ this → σ' !! other = σ !! other)
        ∧ (∀ m, m = JSNativeObjectBuilder.js_context ∨ (∀ c, c ∈ calls → projT1 c ≠ m) →
             fst <$> JSNativeObjectBuilder.getter_of m this σ'
             = fst <$> JSNativeObjectBuilder.getter_of m this σ)
        ∧ (∀ before m v, calls = before ++ [existT m v] →
             m ≠ JSNativeObjectBuilder.js_context →
             JSNativeObjectBuilder.getter_of m this σ' = Some (v, σ')).
Proof.
  intros Hb. eexists. split; [by apply chain_store |]. split; [| split].
  - intros other Hne. by rewrite lookup_insert_ne.
  - intros m Hm.
    rewrite (getter_of_store m this _ _ (lookup_insert_eq σ this _)),
      (getter_of_store m this σ b Hb). cbn.
    by rewrite field_of_assign_all.
  - intros before m v -> Hm.
    rewrite (getter_of_store m this _ _ (lookup_insert_eq σ this _)).
    by rewrite assign_all_snoc, field_of_assign_of.
Qed.

Lemma chain_spec_witness :
  let σ : gmap nat JSNativeObjectBuilder.t := {[ 4%nat := counter_builder ]} in
  ∃ σ', JSNativeObjectBuilder.chain
          [existT JSNativeObjectBuilder.class_name ("Renamed" : JSString);
           existT JSNativeObjectBuilder.attributes ([1] : list JSNativeObjectAttributes)]
          4%nat σ = Some (4%nat, σ')
        ∧ JSNativeObjectBuilder.get_attributes 4%nat σ' = Some ([1], σ').
Proof.
  intros σ.
  destruct (chain_spec
              [existT JSNativeObjectBuilder.class_name ("Renamed" : JSString);
               existT JSNativeObjectBuilder.attributes ([1] : list JSNativeObjectAttributes)]
              4%nat σ counter_builder (lookup_singleton_eq _ _))
    as (σ' & Hchain & _ & _ & Hlast).
  exists σ'. split; [exact Hchain |].
  apply (Hlast [existT JSNativeObjectBuilder.class_name ("Renamed" : JSString)]
           JSNativeObjectBuilder.attributes [1]).
  - reflexivity.
  - discriminate.
Defined.

(** X8: [build] at the end of a chain of setter calls compiles the builder
    with the assignments of the chain, and leaves the store the chain
    left. *)
Theorem chain_then_build (init : JSClassDefinition.t)
    (calls : list JSNativeObjectBuilder.setter_call) (this : nat)
    (σ : gmap nat JSNativeObjectBuilder.t) (b : JSNativeObjectBuilder.t) :
  σ !! this = Some b →
  ∃ σ', JSNativeObjectBuilder.chain calls this σ = Some (this, σ')
        ∧ JSNativeObjectBuilder.build init this σ'
          = Some (JSNativeObjectBuilder.build_const init
                    (JSNativeObjectBuilder.assign_all calls b), σ').
Proof.
  intros Hb. eexists. split; [by apply chain_store |].
  unfold JSNativeObjectBuilder.build, JSNativeObjectBuilder.const_method.
  by rewrite lookup_insert_eq.
Qed.

Lemma chain_then_build_witness :
  let σ : gmap nat JSNativeObjectBuilder.t := {[ 4%nat := counter_builder ]} in
  ∃ σ', JSNativeObjectBuilder.chain
          [existT JSNativeObjectBuilder.attributes ([2] : list JSNativeObjectAttributes)]
          4%nat σ = Some (4%nat, σ')
        ∧ JSNativeObjectBuilder.build JSClassDefinition.kJSClassDefinitionEmpty 4%nat σ'
          = Some (inl out_of_range, σ').
Proof.
  intros σ.
  destruct (chain_then_build JSClassDefinition.kJSClassDefinitionEmpty
              [existT JSNativeObjectBuilder.attributes ([2] : list JSNativeObjectAttributes)]
              4%nat σ counter_builder (lookup_singleton_eq _ _))
    as (σ' & Hchain & Hbuild).
  exists σ'. split; [exact Hchain | exact Hbuild].
Defined.

(** ** The class record the constructor of [JSNativeObject] leaves *)

Lemma JSNativeObject_ctor_inr (init : JSClassDefinition.t)
    (b : JSNativeObjectBuilder.t) (c : JSNativeObject.t) :
  JSNativeObjectBuilder.JSNativeObject_ctor init b = inr c →
  Forall JSNativeObjectBuilder.known_attribute (JSNativeObjectBuilder.attributes_ b)
  ∧ c = JSNativeObject.mk (JSNativeObjectBuilder.js_context_ b)
          (JSNativeObjectBuilder.JSNativeObjectDefinition_ctor b)
          (compiled_record init b
             (JSNativeObjectBuilder.attribute_mask (JSNativeObjectBuilder.attributes_ b)))
          (JSClass.ctor
             (compiled_record init b
                (JSNativeObjectBuilder.attribute_mask (JSNativeObjectBuilder.attributes_ b)))).
Proof.
  intros Hc.
  destruct (set_attribute_bits_cases (JSNativeObjectBuilder.attributes_ b) 0)
    as [[Hall _] | [Hnot _]].
  - rewrite (JSNativeObject_ctor_known init b Hall) in Hc. by injection Hc as <-.
  - rewrite (JSNativeObject_ctor_unknown init b Hnot) in Hc. discriminate Hc.
Qed.

Lemma attribute_mask_bound (attributes : list Z) :
  Forall JSNativeObjectBuilder.known_attribute attributes →
  0 ≤ JSNativeObjectBuilder.attribute_mask attributes ≤ 3
  ∧ (JSNativeObjectBuilder.attribute_mask attributes = 0 ↔ attributes = []).
Proof.
  induction 1 as [| a rest Ha _ [IHb _]]; simpl.
  - split; [lia | done].
  - unfold JSNativeObjectBuilder.known_attribute in Ha.
    assert (Hcases : a = 0 ∨ a = 1) by lia.
    set (m := JSNativeObjectBuilder.attribute_mask rest) in *.
    assert (Hm : m = 0 ∨ m = 1 ∨ m = 2 ∨ m = 3) by lia.
    destruct Hcases as [-> | ->], Hm as [-> | [-> | [-> | ->]]];
      repeat split; vm_compute; discriminate.
Qed.

Lemma compiled_record_entries (init : JSClassDefinition.t)
    (b : JSNativeObjectBuilder.t) (bits : Z) :
  JSClassDefinition.className (compiled_record init b bits)
  = Some (JSNativeObjectBuilder.class_name_ b)
  ∧ JSClassDefinition.parentClass (compiled_record init b bits)
    = match JSNativeObjectBuilder.parent_ptr_ b with
      | Some parent => JSClass.js_class_ref_ (JSNativeObject.js_class_ parent)
      | None => JSClassDefinition.parentClass init
      end
  ∧ JSClassDefinition.initialize (compiled_record init b bits)
    = (if callable (JSNativeObjectBuilder.initialize_callback_ b)
       then Some JSObjectInitializeCallback
       else JSClassDefinition.initialize init).
Proof.
  unfold compiled_record.
  destruct init, (JSNativeObjectBuilder.parent_ptr_ b),
    (callable (JSNativeObjectBuilder.initialize_callback_ b)); repeat split.
Qed.



(** X10: whatever callbacks the builder holds, the constructor writes no
    other entry of the class record: the version and the finalize,
    has-property, set-property, delete-property, get-property-names,
    call-as-function, call-as-constructor, has-instance and convert-to-type
    entries are the ones the record had before. *)
Theorem compiled_record_untouched (init : JSClassDefinition.t)
    (b : JSNativeObjectBuilder.t) (c : JSNativeObject.t) :
  JSNativeObjectBuilder.JSNativeObject_ctor init b = inr c →
  let d := JSNativeObject.js_class_definition_ c in
  JSClassDefinition.version d = JSClassDefinition.version init
  ∧ JSClassDefinition.finalize d = JSClassDefinition.finalize init
  ∧ JSClassDefinition.hasProperty d = JSClassDefinition.hasProperty init
  ∧ JSClassDefinition.setProperty d = JSClassDefinition.setProperty init
  ∧ JSClassDefinition.deleteProperty d = JSClassDefinition.deleteProperty init
  ∧ JSClassDefinition.getPropertyNames d = JSClassDefinition.getPropertyNames init
  ∧ JSClassDefinition.callAsFunction d = JSClassDefinition.callAsFunction init
  ∧ JSClassDefinition.callAsConstructor d = JSClassDefinition.callAsConstructor init
  ∧ JSClassDefinition.hasInstance d = JSClassDefinition.hasInstance init
  ∧ JSClassDefinition.convertToType d = JSClassDefinition.convertToType init.
Proof.
  intros Hc. destruct (JSNativeObject_ctor_inr init b c Hc) as [_ ->].
  cbn [JSNativeObject.js_class_definition_]. unfold compiled_record.
  destruct init, (JSNativeObjectBuilder.parent_ptr_ b),
    (callable (JSNativeObjectBuilder.initialize_callback_ b)); repeat split.
Qed.

Lemma compiled_record_untouched_witness :
  JSNativeObjectBuilder.finalize_callback_ derived_builder = Some (member_function 8)
  ∧ ∃ c, JSNativeObjectBuilder.JSNativeObject_ctor
           JSClassDefinition.kJSClassDefinitionEmpty derived_builder = inr c
         ∧ JSClassDefinition.finalize (JSNativeObject.js_class_definition_ c) = None.
Proof.
  split; [reflexivity |]. eexists. split; [reflexivity |].
  exact (proj1 (proj2 (compiled_record_untouched JSClassDefinition.kJSClassDefinitionEmpty
                         derived_builder _ eq_refl))).
Defined.

(** X11: a class compiled from a builder whose parent is a compiled class
    has, as the parent class of its record, the class created from the
    record of the parent, which carries the class name of the parent's
    builder. *)
Theorem parent_class_linked (init : JSClassDefinition.t)
    (parent_builder child_builder : JSNativeObjectBuilder.t)
    (parent child : JSNativeObject.t) :
  JSNativeObjectBuilder.JSNativeObject_ctor init parent_builder = inr parent →
  JSNativeObjectBuilder.parent_ptr_ child_builder = Some parent →
  JSNativeObjectBuilder.JSNativeObject_ctor init child_builder = inr child →
  JSClassDefinition.parentClass (JSNativeObject.js_class_definition_ child)
  = Some (JSNativeObject.js_class_definition_ parent)
  ∧ JSClassDefinition.className (JSNativeObject.js_class_definition_ parent)
    = Some (JSNativeObjectBuilder.class_name_ parent_builder)
  ∧ JSClassDefinition.className (JSNativeObject.js_class_definition_ child)
    = Some (JSNativeObjectBuilder.class_name_ child_builder).
Proof.
  intros Hp Hptr Hc.
  destruct (JSNativeObject_ctor_inr init parent_builder parent Hp) as [_ Hparent].
  destruct (JSNativeObject_ctor_inr init child_builder child Hc) as [_ ->].
  cbn [JSNativeObject.js_class_definition_].
  destruct (compiled_record_entries init child_builder
              (JSNativeObjectBuilder.attribute_mask
                 (JSNativeObjectBuilder.attributes_ child_builder)))
    as (Hname & Hlink & _).
  rewrite Hname, Hlink, Hptr. clear Hname Hlink Hptr Hc Hp.
  subst parent. cbn [JSNativeObject.js_class_definition_ JSNativeObject.js_class_
                     JSClass.ctor JSClass.js_class_ref_].
  split; [reflexivity |]. split; [| reflexivity].
  apply compiled_record_entries.
Qed.

Lemma parent_class_linked_witness :
  ∃ child, JSNativeObjectBuilder.JSNativeObject_ctor
             JSClassDefinition.kJSClassDefinitionEmpty derived_builder = inr child
           ∧ JSClassDefinition.parentClass (JSNativeObject.js_class_definition_ child)
             = Some (JSNativeObject.js_class_definition_ counter_class)
           ∧ JSClassDefinition.className (JSNativeObject.js_class_definition_ counter_class)
             = Some "Counter".
Proof.
  eexists. split; [reflexivity |].
  destruct (parent_class_linked JSClassDefinition.kJSClassDefinitionEmpty
              counter_builder derived_builder counter_class _ eq_refl eq_refl eq_refl)
    as (Hparent & Hname & _).
  split; [exact Hparent | exact Hname].
Defined.

(** X12: the attribute mask of a compiled class fits the two bits of the
    bitset, and it is 0 exactly when the builder has no attribute. *)
Theorem compiled_mask_bound (init : JSClassDefinition.t)
    (b : JSNativeObjectBuilder.t) (c : JSNativeObject.t) :
  JSNativeObjectBuilder.JSNativeObject_ctor init b = inr c →
  0 ≤ JSClassDefinition.attributes (JSNativeObject.js_class_definition_ c) ≤ 3
  ∧ (JSClassDefinition.attributes (JSNativeObject.js_class_definition_ c) = 0
     ↔ JSNativeObjectBuilder.attributes_ b = []).
Proof.
  intros Hc. destruct (JSNativeObject_ctor_inr init b c Hc) as [Hall ->].
  cbn [JSNativeObject.js_class_definition_]. rewrite compiled_record_attributes.
  by apply attribute_mask_bound.
Qed.

Lemma compiled_mask_bound_witness :
  ∃ c, JSNativeObjectBuilder.JSNativeObject_ctor
         JSClassDefinition.kJSClassDefinitionEmpty attributes_10_builder = inr c
       ∧ 0 ≤ JSClassDefinition.attributes (JSNativeObject.js_class_definition_ c) ≤ 3.
Proof.
  eexists. split; [reflexivity |].
  exact (proj1 (compiled_mask_bound JSClassDefinition.kJSClassDefinitionEmpty
                  attributes_10_builder _ eq_refl)).
Defined.

(** ** JSArray: the conversions as a whole *)

Section ArrayConversions.

Context {JSValue double : Type} `{!JSValueOps JSValue double}.

(** The vector a conversion returns, written out. *)
Lemma to_vector_closed_form {A : Type} (cast : JSValue → A) (this : JSArray.t JSValue) :
  JSArray.to_vector cast this
  = Some (map (fun i : nat => cast (JSArray.GetPropertyAt this (Z.of_nat i)))
            (seq 0 (Z.to_nat (JSArray.GetLength this)))).
Proof.
  destruct (to_vector_spec cast this) as (items & -> & Hlen & Hnth).
  pose proof (GetLength_range this) as [H0 _].
  f_equal. apply list_eq. intros i.
  destruct (decide (Z.of_nat i < JSArray.GetLength this)) as [Hi | Hi].
  - rewrite (Hnth i Hi), list_lookup_fmap, lookup_seq_lt by lia. reflexivity.
  - rewrite (lookup_ge_None_2 items) by lia.
    rewrite list_lookup_fmap, lookup_seq_ge by lia. reflexivity.
Qed.

Lemma GetLength_zero (this : JSArray.t JSValue) :
  JSArray.HasProperty this "length" = false
  ∨ IsNumber (JSArray.GetProperty this "length") = false →
  JSArray.GetLength this = 0.
Proof.
  unfold JSArray.GetLength. intros [Hh | Hn].
  - by rewrite Hh.
  - destruct (JSArray.HasProperty this "length"); [| done]. by rewrite Hn.
Qed.

(** X13: each typed conversion returns the vector of [JSValue] that the
    conversion to [std::vector<JSValue>] returns, with the cast of the
    element type applied to each element. *)
Theorem typed_conversions_cast_elements (this : JSArray.t JSValue) :
  JSArray.to_vector_bool this = map to_bool <$> JSArray.to_vector_JSValue this
  ∧ JSArray.to_vector_string this = map to_string <$> JSArray.to_vector_JSValue this
  ∧ JSArray.to_vector_double this = map to_double <$> JSArray.to_vector_JSValue this
  ∧ JSArray.to_vector_int32_t this = map to_int32_t <$> JSArray.to_vector_JSValue this
  ∧ JSArray.to_vector_uint32_t this = map to_uint32_t <$> JSArray.to_vector_JSValue this.
Proof.
  unfold JSArray.to_vector_bool, JSArray.to_vector_string, JSArray.to_vector_double,
    JSArray.to_vector_int32_t, JSArray.to_vector_uint32_t, JSArray.to_vector_JSValue.
  rewrite !to_vector_closed_form. cbn [fmap option_fmap option_map].
  rewrite !map_map. repeat split.
Qed.

(** X14: an object that has no ["length"] property, or whose ["length"] is
    not a number, converts to the empty vector, whatever the element type
    and whatever indexed properties it has. *)
Theorem to_vector_without_length (this : JSArray.t JSValue) :
  JSArray.HasProperty this "length" = false
  ∨ IsNumber (JSArray.GetProperty this "length") = false →
  JSArray.to_vector_JSValue this = Some []
  ∧ JSArray.to_vector_bool this = Some []
  ∧ JSArray.to_vector_string this = Some []
  ∧ JSArray.to_vector_double this = Some []
  ∧ JSArray.to_vector_int32_t this = Some []
  ∧ JSArray.to_vector_uint32_t this = Some [].
Proof.
  intros Hlen. apply GetLength_zero in Hlen.
  unfold JSArray.to_vector_bool, JSArray.to_vector_string, JSArray.to_vector_double,
    JSArray.to_vector_int32_t, JSArray.to_vector_uint32_t, JSArray.to_vector_JSValue.
  rewrite !to_vector_closed_form, Hlen. repeat split.
Qed.

(** X15: a conversion reads the length and the properties at the indices
    below it, and nothing else: two objects with the same length and the
    same properties below it convert to the same vectors. *)
Theorem to_vector_reads_below_length {A : Type} (cast : JSValue → A)
    (this other : JSArray.t JSValue) :
  JSArray.same_elements this other →
  JSArray.to_vector cast this = JSArray.to_vector cast other.
Proof.
  intros [Hlen Hel]. rewrite !to_vector_closed_form, <- Hlen.
  pose proof (GetLength_range this) as [H0 _].
  f_equal. apply map_ext_in. intros i Hi%in_seq.
  rewrite Hel by lia. reflexivity.
Qed.

(** X16: an object that is an array of the values [values] converts to
    exactly [values], and each typed conversion to the casts of [values],
    in the same order. *)
Theorem to_vector_of_array (this : JSArray.t JSValue) (values : list JSValue) :
  JSArray.holds this values →
  JSArray.GetLength this = Z.of_nat (length values)
  ∧ JSArray.to_vector_JSValue this = Some values
  ∧ JSArray.to_vector_bool this = Some (map to_bool values)
  ∧ JSArray.to_vector_string this = Some (map to_string values)
  ∧ JSArray.to_vector_double this = Some (map to_double values)
  ∧ JSArray.to_vector_int32_t this = Some (map to_int32_t values)
  ∧ JSArray.to_vector_uint32_t this = Some (map to_uint32_t values).
Proof.
  intros (Hhas & Hnum & Hlen & Hel).
  assert (HL : JSArray.GetLength this = Z.of_nat (length values)).
  { unfold JSArray.GetLength. by rewrite Hhas, Hnum. }
  assert (Hall : ∀ (A : Type) (cast : JSValue → A),
             JSArray.to_vector cast this = Some (map cast values)).
  { intros A cast. rewrite to_vector_closed_form, HL, Nat2Z.id.
    f_equal. apply list_eq. intros i.
    rewrite !list_lookup_fmap.
    destruct (values !! i) as [v |] eqn:Hv; simpl.
    - rewrite lookup_seq_lt by (by apply lookup_lt_Some in Hv). simpl.
      by rewrite (Hel i v Hv).
    - rewrite lookup_seq_ge by (by apply lookup_ge_None in Hv). reflexivity. }
  split; [exact HL |].
  unfold JSArray.to_vector_bool, JSArray.to_vector_string, JSArray.to_vector_double,
    JSArray.to_vector_int32_t, JSArray.to_vector_uint32_t, JSArray.to_vector_JSValue.
  rewrite !Hall, map_id. repeat split.
Qed.

End ArrayConversions.

Lemma to_vector_without_length_witness :
  JSArray.to_vector_JSValue sample_text_length = Some [].
Proof.
  apply (to_vector_without_length sample_text_length). right. reflexivity.
Defined.

Lemma sample_arrays_same_elements : JSArray.same_elements sample_array sample_array_extended.
Proof.
  split; [reflexivity |].
  intros i Hi. change (JSArray.GetLength sample_array) with 3 in Hi.
  cbn. destruct (Z.eqb_spec (Z.of_nat i) 3); [lia | reflexivity].
Defined.

Lemma to_vector_reads_below_length_witness :
  JSArray.to_vector_string sample_array_extended = Some [""; "x"; ""].
Proof.
  unfold JSArray.to_vector_string.
  rewrite <- (to_vector_reads_below_length to_string sample_array sample_array_extended
                sample_arrays_same_elements).
  reflexivity.
Defined.

Lemma sample_array_holds :
  JSArray.holds sample_array [sample_number 10; sample_text "x"; sample_number 30].
Proof.
  repeat split.
  intros i v Hv. destruct i as [| [| [| i]]]; cbn in Hv; try discriminate Hv;
    injection Hv as <-; reflexivity.
Defined.

Lemma to_vector_of_array_witness :
  JSArray.to_vector_uint32_t sample_array = Some [10; 0; 30].
Proof.
  exact (proj2 (proj2 (proj2 (proj2 (proj2 (proj2
           (to_vector_of_array sample_array _ sample_array_holds))))))).
Defined.
